(** * fix-peak-names-with-elevation: a shallow embedding and its properties

    The script reads an OSM XML document, finds peak and hill nodes whose
    [name] tag embeds an elevation ("Storefjell 1200"), cross-checks the
    embedded number against the Kartverket terrain model and against an
    existing [ele] tag, and rewrites the node when both agree.

    Modelling choices, all taken from
    [src/mountains/fix-peak-names-with-elevation.py]:
    - a Python [str] is a [string]; every [ascii] stands for the code point
      of the same number (0..255);
    - numbers are exact: a Python [float] is a rational, an [int] an integer;
      binary64 arithmetic agrees with this on whole numbers up to 2^52 in
      magnitude, and the theorems on the two tolerances are stated for
      such values only;
    - an [Element] is its tag, its attribute dictionary and its children;
    - references to elements held by the loop ([name_tag], [ele_tag],
      [natural_tag]) are positions in the node's child list, so that
      [name_tag.set] is an update of the node itself;
    - exceptions and the [logging] output are threaded by a small
      writer/error monad. *)

From Stdlib Require Import String Ascii ZArith QArith Qabs DecimalString Lia.
From stdpp Require Import base option list gmap strings.

Local Open Scope string_scope.
Local Open Scope list_scope.

(** ** Characters and character classes of [re] *)

Module Chars.

Definition code (c : ascii) : N := N_of_ascii c.

(** [[0-9]] *)
Definition is_digit (c : ascii) : bool :=
  (48 <=? code c)%N && (code c <=? 57)%N.

(** [\s] on a [str] pattern: the characters for which [str.isspace] holds;
    below 256 these are 9-13, 28-32, 133 and 160. *)
Definition is_space (c : ascii) : bool :=
  let n := code c in
  ((9 <=? n)%N && (n <=? 13)%N) || ((28 <=? n)%N && (n <=? 32)%N)
  || (n =? 133)%N || (n =? 160)%N.

(** [.] without [re.DOTALL]: anything but a line feed. *)
Definition is_newline (c : ascii) : bool := (code c =? 10)%N.

Fixpoint all_chars (p : ascii -> bool) (s : string) : bool :=
  match s with
  | EmptyString => true
  | String c s' => p c && all_chars p s'
  end.

Fixpoint any_char (p : ascii -> bool) (s : string) : bool :=
  match s with
  | EmptyString => false
  | String c s' => p c || any_char p s'
  end.

(** What may follow a maximal run of [p]: the end, or a character
    outside [p]. *)
Definition stops (p : ascii -> bool) (s : string) : bool :=
  match s with
  | EmptyString => true
  | String c _ => negb (p c)
  end.

Definition nonempty (s : string) : bool :=
  match s with EmptyString => false | String _ _ => true end.

End Chars.
Import Chars.

(** ** The two regular expressions and [Pattern.fullmatch] *)

Module Re.

Inductive charset : Type :=
| Digit       (* [0-9] *)
| NotDigit    (* [^0-9] *)
| Space       (* \s *)
| Dot.        (* . *)

Inductive quant : Type :=
| Star        (* greedy * *)
| Plus.       (* greedy + *)

(** One quantified character class, inside a capturing group or not. *)
Record atom : Type := Atom { captured : bool; cls : charset; rep : quant }.

Definition pattern := list atom.

Definition in_class (cs : charset) (c : ascii) : bool :=
  match cs with
  | Digit => is_digit c
  | NotDigit => negb (is_digit c)
  | Space => is_space c
  | Dot => negb (is_newline c)
  end.

(** Greedy repetition with backtracking: take as many characters of the
    class as there are, hand the text taken and the text left to the
    continuation, and give characters back one at a time while the
    continuation fails. *)
Fixpoint repeat_greedy {R : Type} (p : ascii -> bool) (s : string)
    (k : string -> string -> option R) : option R :=
  match s with
  | EmptyString => k "" ""
  | String c s' =>
      if p c then
        match repeat_greedy p s' (fun m r => k (String c m) r) with
        | Some x => Some x
        | None => k "" s
        end
      else k "" s
  end.

Definition admits (q : quant) (m : string) : bool :=
  match q with
  | Star => true
  | Plus => nonempty m
  end.

(** Match the atoms in sequence; the pattern must end where the string
    ends ([fullmatch]). The result lists the captured groups in order. *)
Fixpoint match_here (pat : pattern) (s : string) : option (list string) :=
  match pat with
  | [] => if nonempty s then None else Some []
  | a :: pat' =>
      repeat_greedy (in_class (cls a)) s (fun m r =>
        if admits (rep a) m then
          match match_here pat' r with
          | Some gs => Some (if captured a then m :: gs else gs)
          | None => None
          end
        else None)
  end.

Definition fullmatch (pat : pattern) (s : string) : option (list string) :=
  match_here pat s.

(** [m.group(i)], for [i] from 1. *)
Definition group (i : nat) (m : list string) : string :=
  nth (pred i) m "".

End Re.
Import Re.

(** Line 15. Group 1 is a starred [[^0-9]], then comes [\s+] outside any
    group, group 2 is [[0-9]+] and group 3 a starred dot. *)
Definition name_with_elevation_pattern : pattern :=
  [Atom true NotDigit Star; Atom false Space Plus;
   Atom true Digit Plus; Atom true Dot Star].

(** Line 16. Group 1 is [[0-9]+], then comes a starred [\s] outside any
    group, and group 2 is a starred dot. *)
Definition only_elevation_pattern : pattern :=
  [Atom true Digit Plus; Atom false Space Star; Atom true Dot Star].

(** ** The name classifier (lines 143-155 of [main]) *)

Record NameMatch : Type := mkNameMatch {
  name_without_ele : string;   (* name_part *)
  ele : string;                (* elevation_part *)
  rest : string                (* remainder *)
}.

Definition classify (name : string) : option NameMatch :=
  match fullmatch name_with_elevation_pattern name with
  | Some m => Some (mkNameMatch (group 1 m) (group 2 m) (group 3 m))
  | None =>
      match fullmatch only_elevation_pattern name with
      | None => None
      | Some m => Some (mkNameMatch "" (group 1 m) (group 2 m))
      end
  end.

(** ** Python values, exceptions and log records *)

(** A JSON number as [json.load] returns it. *)
Inductive pynum : Type :=
| PyInt (z : Z)
| PyFloat (q : Q).

Definition num_value (n : pynum) : Q :=
  match n with
  | PyInt z => inject_Z z
  | PyFloat q => q
  end.

(** The [str | int | float] argument of [mk_tag_element]. *)
Inductive pyvalue : Type :=
| VStr (s : string)
| VNum (n : pynum).

Inductive py_error : Type :=
| HTTPError
| TypeError
| ValueError
| KeyError
| AssertionError.

(** The three [logger.warning] calls of [main] (lines 160, 167, 171). The
    [logger.info] calls of [get_elevation] go to the root logger, whose
    level is WARNING: they emit nothing and are left out. *)
Inductive log_record : Type :=
| Skipping (name : string)
| Skipping_dmt_ele (name : string) (dmt_ele : pynum)
| Skipping_existing_ele (name : string) (existing_ele : string).

(** A computation logs records and then raises or returns. *)
Definition M (A : Type) : Type := (list log_record * (py_error + A))%type.

Definition ret {A : Type} (a : A) : M A := ([], inr a).
Definition raise {A : Type} (e : py_error) : M A := ([], inl e).
Definition warning (r : log_record) : M unit := ([r], inr tt).

Definition bind {A B : Type} (m : M A) (k : A -> M B) : M B :=
  match m with
  | (l, inl e) => (l, inl e)
  | (l, inr a) => let '(l', r) := k a in (l ++ l', r)
  end.

Notation "'let*' x := m 'in' k" := (bind m (fun x => k))
  (at level 10, x name, m at level 200, k at level 200, only parsing).

Definition logged {A : Type} (m : M A) : list log_record := fst m.
Definition outcome {A : Type} (m : M A) : py_error + A := snd m.

(** ** ElementTree elements *)

#[warnings="-register-all"]
Inductive Element : Type := mkElement {
  tag : string;
  attrib : gmap string string;
  children : list Element
}.

Module ET.

(** [Element.get(key)] *)
Definition get (e : Element) (key : string) : option string :=
  attrib e !! key.

(** [Element.set(key, value)] *)
Definition set (e : Element) (key value : string) : Element :=
  mkElement (tag e) (<[key := value]> (attrib e)) (children e).

(** [Element.append(child)] *)
Definition append (e child : Element) : Element :=
  mkElement (tag e) (attrib e) (children e ++ [child]).

(** The truth value of an element: [len(element) != 0], whether it has
    children. This is what [if ele_tag] on line 157 tests. *)
Definition truth (e : Element) : bool :=
  match children e with
  | [] => false
  | _ :: _ => true
  end.

(** [ET.Element(name)] *)
Definition Element (name : string) : Element := mkElement name ∅ [].

End ET.

(** ** The elevation service *)

Definition coord : Type := (Q * Q)%type.

(** One entry of the [punkter] list of a reply. *)
Record punkt : Type := mkPunkt { x : Q; y : Q; z : option pynum }.

(** What [urllib.request.urlopen] does with a request: it raises
    [HTTPError] or yields a reply that [json.load] reads as a list of
    points. A request that fails otherwise ([URLError], a time-out) and a
    reply that is no JSON or lacks a field are not modelled. *)
Inductive http_reply : Type :=
| http_error
| http_ok (punkter : list punkt).

(** The [elevations] dictionary: keys in insertion order, compared by
    value as Python compares floats. *)
Definition elevation_dict : Type := list (coord * option pynum).

Definition coord_eqb (a b : coord) : bool :=
  Qeq_bool (fst a) (fst b) && Qeq_bool (snd a) (snd b).

Fixpoint dict_set (k : coord) (v : option pynum) (d : elevation_dict)
    : elevation_dict :=
  match d with
  | [] => [(k, v)]
  | (k', v') :: d' =>
      if coord_eqb k' k then (k', v) :: d' else (k', v') :: dict_set k v d'
  end.

Fixpoint dict_get (k : coord) (d : elevation_dict) : option (option pynum) :=
  match d with
  | [] => None
  | (k', v') :: d' => if coord_eqb k' k then Some v' else dict_get k d'
  end.

(** [l[i : i + 50] for i in range(0, len(l), 50)] *)
Fixpoint batches_aux (fuel : nat) (l : list coord) : list (list coord) :=
  match fuel, l with
  | O, _ | _, [] => []
  | S fuel', _ :: _ => take 50 l :: batches_aux fuel' (drop 50 l)
  end.

Definition batches (l : list coord) : list (list coord) :=
  batches_aux (length l) l.

(** ** Decimal numerals *)

Definition digit_value (c : ascii) : Z := Z.of_N (code c) - 48.

Fixpoint int_of_digits_from (acc : Z) (s : string) : Z :=
  match s with
  | EmptyString => acc
  | String c s' => int_of_digits_from (10 * acc + digit_value c) s'
  end.

Definition int_of_digits (s : string) : Z := int_of_digits_from 0 s.

(** [str(n)] for an [int]. *)
Definition str_int (n : Z) : string := NilZero.string_of_int (Z.to_int n).

(** ** The specification's wording

    Definitions that follow the words of the specification, to compare the
    script with. *)

Module Wording.

(** A string with its trailing whitespace trimmed. *)
Fixpoint trim_trailing_ws (s : string) : string :=
  match s with
  | EmptyString => ""
  | String c s' =>
      match trim_trailing_ws s' with
      | EmptyString => if is_space c then "" else String c ""
      | String _ _ as t => String c t
      end
  end.

(** A child that is a tag with the given key. *)
Definition has_key (key : string) (e : Element) : bool :=
  bool_decide (tag e = "tag") && bool_decide (ET.get e "k" = Some key).

(** The first tag with the key in document order, with its position. *)
Fixpoint first_tag_from (key : string) (i : nat) (l : list Element)
    : option (nat * Element) :=
  match l with
  | [] => None
  | e :: l' =>
      if has_key key e then Some (i, e) else first_tag_from key (S i) l'
  end.

(** The last tag with the key in document order, with its position. *)
Fixpoint last_tag_from (key : string) (i : nat) (l : list Element)
    : option (nat * Element) :=
  match l with
  | [] => None
  | e :: l' =>
      match last_tag_from key (S i) l' with
      | Some r => Some r
      | None => if has_key key e then Some (i, e) else None
      end
  end.

Definition first_tag (key : string) (node_element : Element) :=
  first_tag_from key 0 (children node_element).

Definition last_tag (key : string) (node_element : Element) :=
  last_tag_from key 0 (children node_element).

End Wording.
Import Wording.

(** ** The script *)

Section Script.

(** [float(s)] on a string: the number read, or [None] where Python
    raises [ValueError]. *)
Variable float : string -> option Q.

(** [str(f)] on a [float]. *)
Variable str_float : Q -> string.

(** The service: the reply to the request built from an endpoint and a
    batch of coordinates. *)
Variable urlopen : string -> list coord -> http_reply.

(** [float(v)] where [v] comes from [Element.get]: [None] is no string. *)
Definition float_of (v : option string) : M Q :=
  match v with
  | None => raise TypeError
  | Some s =>
      match float s with
      | None => raise ValueError
      | Some q => ret q
      end
  end.

(** [str(value)] on a number. *)
Definition str_num (n : pynum) : string :=
  match n with
  | PyInt i => str_int i
  | PyFloat q => str_float q
  end.

(** Lines 56-71: one entry of a reply updates [elevations] and
    [pending_coords]. *)
Definition store_punkt (endpoint : string)
    (st : elevation_dict * list coord) (node : punkt)
    : elevation_dict * list coord :=
  let '(elevations, pending_coords) := st in
  let point := (x node, y node) in
  match z node with
  | Some h => (dict_set point (Some h) elevations, pending_coords)
  | None =>
      if decide (endpoint = "punkt")
      then (dict_set point None elevations, pending_coords)
      else (elevations, pending_coords ++ [point])
  end.

(** Lines 40-71: the requests of one endpoint, batch after batch; the
    first [HTTPError] is raised again and ends the function. *)
Fixpoint query_batches (endpoint : string) (bs : list (list coord))
    (st : elevation_dict * list coord) : M (elevation_dict * list coord) :=
  match bs with
  | [] => ret st
  | b :: bs' =>
      match urlopen endpoint b with
      | http_error => raise HTTPError
      | http_ok punkter =>
          query_batches endpoint bs' (foldl (store_punkt endpoint) st punkter)
      end
  end.

(** Lines 35-38: an endpoint is asked for the coordinates still pending. *)
Definition query_endpoint (endpoint : string)
    (st : elevation_dict * list coord) : M (elevation_dict * list coord) :=
  let '(elevations, pending_coords) := st in
  query_batches endpoint (batches pending_coords) (elevations, []).

Definition get_elevation (coords : list coord) : M elevation_dict :=
  let* st1 := query_endpoint "datakilder/dtm1/punkt" ([], coords) in
  let* st2 := query_endpoint "punkt" st1 in
  ret (fst st2).

(** [d[k]] *)
Definition subscript (d : elevation_dict) (k : coord) : M (option pynum) :=
  match dict_get k d with
  | None => raise KeyError
  | Some v => ret v
  end.

Definition get_coord (node_element : Element) : M coord :=
  let* lon := float_of (ET.get node_element "lon") in
  let* lat := float_of (ET.get node_element "lat") in
  ret (lon, lat).

Definition mk_tag_element (name : string) (value : pyvalue) : Element :=
  let value :=
    match value with
    | VNum n => str_num n
    | VStr s => s
    end in
  let tag_element := ET.Element "tag" in
  let tag_element := ET.set tag_element "k" name in
  ET.set tag_element "v" value.

(** *** The tag scan (lines 120-132)

    Each of the three variables holds the position and the element of the
    tag it was last assigned. *)
Record tag_refs : Type := mkRefs {
  name_tag : option (nat * Element);
  ele_tag : option (nat * Element);
  natural_tag : option (nat * Element)
}.

Definition no_refs : tag_refs := mkRefs None None None.

Definition scan_step (refs : tag_refs) (i : nat) (tag_element : Element)
    : tag_refs :=
  if decide (tag tag_element = "tag") then
    match ET.get tag_element "k" with
    | Some k =>
        if decide (k = "name") then
          mkRefs (Some (i, tag_element)) (ele_tag refs) (natural_tag refs)
        else if decide (k = "ele") then
          mkRefs (name_tag refs) (Some (i, tag_element)) (natural_tag refs)
        else if decide (k = "natural") then
          mkRefs (name_tag refs) (ele_tag refs) (Some (i, tag_element))
        else refs
    | None => refs
    end
  else refs.

Fixpoint scan_from (i : nat) (l : list Element) (refs : tag_refs)
    : tag_refs :=
  match l with
  | [] => refs
  | tag_element :: l' => scan_from (S i) l' (scan_step refs i tag_element)
  end.

Definition scan_tags (node_element : Element) : tag_refs :=
  scan_from 0 (children node_element) no_refs.

(** [natural_tag.get("v") not in ("peak", "hill")] *)
Definition not_peak_or_hill (v : option string) : bool :=
  match v with
  | Some s => negb (bool_decide (s = "peak") || bool_decide (s = "hill"))
  | None => true
  end.

(** Line 157: [ele_tag.get("v") if ele_tag else ""]. *)
Definition existing_ele_of (ele_tag : option (nat * Element))
    : option string :=
  match ele_tag with
  | Some (_, e) => if ET.truth e then ET.get e "v" else Some ""
  | None => Some ""
  end.

(** The truth value of [existing_ele]: a non-empty string. *)
Definition truthy (v : option string) : bool :=
  match v with
  | Some s => nonempty s
  | None => false
  end.

Definition Qgtb (a b : Q) : bool := negb (Qle_bool a b).

(** Lines 174-178. *)
Definition rewrite_node (node_element : Element) (i : nat)
    (name_tag : Element) (m : NameMatch) (name : string) (dmt_ele : pynum)
    : Element :=
  let name_tag := ET.set name_tag "v" (name_without_ele m) in
  let node_element :=
    mkElement (tag node_element) (attrib node_element)
              (<[i := name_tag]> (children node_element)) in
  let node_element :=
    ET.append node_element (mk_tag_element "ele" (VStr (ele m))) in
  let node_element :=
    ET.append node_element
      (mk_tag_element "NOTE" (VStr "fixed name with elevation")) in
  let node_element :=
    ET.append node_element (mk_tag_element "name:original" (VStr name)) in
  ET.append node_element (mk_tag_element "ele:kartverket-dmt" (VNum dmt_ele)).

(** Lines 163-164: [get_elevation([coord])[coord]]. *)
Definition dmt_ele_of (node_element : Element) : M (option pynum) :=
  let* coord := get_coord node_element in
  let* elevations := get_elevation [coord] in
  subscript elevations coord.

(** Lines 157-178, once the name has matched. *)
Definition validate_and_rewrite (node_element : Element) (refs : tag_refs)
    (i : nat) (name_tag : Element) (name : string) (m : NameMatch)
    : M Element :=
  let existing_ele := existing_ele_of (ele_tag refs) in
  if nonempty (rest m) then
    let* _ := warning (Skipping name) in ret node_element
  else
    let* dmt_ele := dmt_ele_of node_element in
    let* claimed := float_of (Some (ele m)) in
    match dmt_ele with
    | None => raise TypeError
    | Some dmt =>
        if Qgtb (Qabs (num_value dmt - claimed)) 20 then
          let* _ := warning (Skipping_dmt_ele name dmt) in ret node_element
        else if truthy existing_ele then
          let* claimed := float_of (Some (ele m)) in
          let* existing := float_of existing_ele in
          if Qgtb (Qabs (claimed - existing)) 10 then
            let* _ := warning
                      (Skipping_existing_ele name (default "" existing_ele)) in
            ret node_element
          else ret (rewrite_node node_element i name_tag m name dmt)
        else ret (rewrite_node node_element i name_tag m name dmt)
    end.

(** The body of the loop over the children of the root (lines 120-178):
    the node as it is after the iteration. *)
Definition process_node (node_element : Element) : M Element :=
  let refs := scan_tags node_element in
  match natural_tag refs with
  | None => ret node_element
  | Some (_, natural_tag) =>
      if not_peak_or_hill (ET.get natural_tag "v") then ret node_element
      else
        match name_tag refs with
        | None => ret node_element
        | Some (i, name_tag) =>
            match ET.get name_tag "v" with
            | None => raise AssertionError
            | Some name =>
                match classify name with
                | None => ret node_element
                | Some m =>
                    validate_and_rewrite node_element refs i name_tag name m
                end
            end
        end
  end.

Fixpoint process_nodes (nodes : list Element) : M (list Element) :=
  match nodes with
  | [] => ret []
  | node_element :: nodes' =>
      let* node_element' := process_node node_element in
      let* nodes'' := process_nodes nodes' in
      ret (node_element' :: nodes'')
  end.

(** [main] on the parsed document: the tree that is serialised and
    printed when the loop has run to its end. *)
Definition main (root : Element) : M Element :=
  let* nodes := process_nodes (children root) in
  ret (mkElement (tag root) (attrib root) nodes).

(** What [print] writes: nothing when an exception ended the run. *)
Definition printed (run : M Element) : option Element :=
  match outcome run with
  | inl _ => None
  | inr root => Some root
  end.

(** The node gets as far as line 157: it is a peak or a hill, and the
    value [name] of its name tag, the child [name_el] at position [i],
    matches one of the patterns as [m]. *)
Definition candidate_match (node_element : Element) (i : nat)
    (name_el : Element) (name : string) (m : NameMatch) : Prop :=
  (exists j natural_el,
      natural_tag (scan_tags node_element) = Some (j, natural_el) /\
      not_peak_or_hill (ET.get natural_el "v") = false) /\
  name_tag (scan_tags node_element) = Some (i, name_el) /\
  ET.get name_el "v" = Some name /\
  classify name = Some m.

End Script.

(** ** Sample collaborators and documents

    Concrete instances of what the script takes from outside, used to run
    it on examples. *)

Module Samples.

(** [float] on unsigned decimal integers; every other string is refused.
    It agrees with Python on digit strings and on the strings without any
    digit that the examples use. *)
Definition float_decimal (s : string) : option Q :=
  if nonempty s && all_chars is_digit s
  then Some (inject_Z (int_of_digits s))
  else None.

(** [str] on a float of integral value, as in [str(1195.0)]. *)
Definition str_float_integral (q : Q) : string :=
  str_int (Qnum q / Z.pos (Qden q)) +:+ ".0".

(** What the terrain model knows at a coordinate: the service fails there,
    or each of the two endpoints has a height or [null]. *)
Inductive terrain : Type :=
| Down
| Heights (dtm1 punkt : option pynum).

Definition is_down (t : terrain) : bool :=
  match t with Down => true | Heights _ _ => false end.

Definition height_at (endpoint : string) (t : terrain) : option pynum :=
  match t with
  | Down => None
  | Heights dtm1 punkt => if decide (endpoint = "punkt") then punkt else dtm1
  end.

(** A service that answers every coordinate of the batch from [t]. *)
Definition service (t : coord -> terrain) (endpoint : string)
    (batch : list coord) : http_reply :=
  if existsb (fun c => is_down (t c)) batch then http_error
  else http_ok (map (fun c => mkPunkt (fst c) (snd c) (height_at endpoint (t c)))
                    batch).

Definition flat (dtm1 punkt : option pynum) : coord -> terrain :=
  fun _ => Heights dtm1 punkt.

(** Down west of the tenth meridian, [h] elsewhere. *)
Definition down_in_the_west (h : pynum) : coord -> terrain :=
  fun c => if Qle_bool (fst c) 10 then Down else Heights (Some h) None.

Definition tag_el (k v : string) : Element :=
  mkElement "tag" {[ "k" := k; "v" := v ]} [].

Definition node_el (lon lat : string) (tags : list Element) : Element :=
  mkElement "node" {[ "lon" := lon; "lat" := lat ]} tags.

Definition osm (nodes : list Element) : Element :=
  mkElement "osm" {[ "version" := "0.6" ]} nodes.

Definition storefjell : Element :=
  node_el "8" "61" [tag_el "natural" "peak"; tag_el "name" "Storefjell 1200"].

Definition storefjell_fixed : Element :=
  node_el "8" "61"
    [tag_el "natural" "peak"; tag_el "name" "Storefjell";
     tag_el "ele" "1200"; tag_el "NOTE" "fixed name with elevation";
     tag_el "name:original" "Storefjell 1200";
     tag_el "ele:kartverket-dmt" "1195"].

Definition peak_named (lon : string) (name : string)
    (more : list Element) : Element :=
  node_el lon "61" ([tag_el "natural" "peak"; tag_el "name" name] ++ more).

Definition peak_fixed (lon : string) (name_part : string)
    (more : list Element) (claimed original dtm : string) : Element :=
  node_el lon "61"
    ([tag_el "natural" "peak"; tag_el "name" name_part] ++ more ++
     [tag_el "ele" claimed; tag_el "NOTE" "fixed name with elevation";
      tag_el "name:original" original; tag_el "ele:kartverket-dmt" dtm]).

(** A tag element that has a child element of its own. *)
Definition tag_el_with_child (k v : string) : Element :=
  mkElement "tag" {[ "k" := k; "v" := v ]} [mkElement "note" ∅ []].

Definition twice_named : Element :=
  peak_named "8" "Storefjell 1200" [tag_el "name" "Storefjell"].

Definition snohetta : Element := peak_named "9" "Snohetta 2286 (highest)" [].

(** The same peak twelve degrees east. *)
Definition eastern : Element := peak_named "12" "Storefjell 1200" [].

Definition dtm (h : Z) : coord -> terrain := flat (Some (PyInt h)) None.

(** A way, which has no coordinate of its own, tagged as a peak. *)
Definition way_peak : Element :=
mkElement "way" {[ "id" := "1" ]}
          [tag_el "natural" "peak"; tag_el "name" "Storefjell 1200"].

(** A tree with a number in its name. *)
Definition tree : Element :=
node_el "8" "61" [tag_el "natural" "tree"; tag_el "name" "Eika 1200"].

(** A service whose replies list no point at all. *)
Definition empty_replies (endpoint : string) (batch : list coord)
  : http_reply := http_ok [].

(** The service of [t] with its second endpoint out of order. *)
Definition punkt_down (t : coord -> terrain) (endpoint : string)
  (batch : list coord) : http_reply :=
if decide (endpoint = "punkt") then http_error else service t endpoint batch.

(** The script run against the terrain [t]. *)
Definition run_with (t : coord -> terrain) (root : Element) : M Element :=
  main float_decimal str_float_integral (service t) root.

End Samples.

Import Samples.

(** * Properties *)

(** ** Strings and character classes *)

Lemma str_app_cons (a : ascii) (s t : string) :
  String a s +:+ t = String a (s +:+ t).
Proof. reflexivity. Qed.

Lemma str_app_nil_r (s : string) : s +:+ "" = s.
Proof. induction s as [|a s IH]; [reflexivity|]. by rewrite str_app_cons, IH. Qed.

Lemma str_app_assoc (s t u : string) : (s +:+ t) +:+ u = s +:+ (t +:+ u).
Proof. induction s as [|a s IH]; [reflexivity|]. by rewrite !str_app_cons, IH. Qed.

Lemma all_chars_app (p : ascii -> bool) (s t : string) :
  all_chars p (s +:+ t) = all_chars p s && all_chars p t.
Proof.
  induction s as [|a s IH]; [reflexivity|].
  rewrite str_app_cons. simpl. rewrite IH. by destruct (p a).
Qed.

Lemma any_char_app (p : ascii -> bool) (s t : string) :
  any_char p (s +:+ t) = any_char p s || any_char p t.
Proof.
  induction s as [|a s IH]; [reflexivity|].
  rewrite str_app_cons. simpl. rewrite IH. by destruct (p a).
Qed.

Lemma all_chars_any (p : ascii -> bool) (s : string) :
  nonempty s = true -> all_chars p s = true -> any_char p s = true.
Proof. destruct s as [|a s]; [done|]. simpl. by destruct (p a). Qed.

Lemma all_not_any (p : ascii -> bool) (s : string) :
  all_chars (fun c => negb (p c)) s = true -> any_char p s = false.
Proof.
  induction s as [|a s IH]; [done|]. simpl.
  destruct (p a); simpl; [done|]. exact IH.
Qed.

Lemma no_char_all_not (p : ascii -> bool) (s : string) :
  any_char p s = false -> all_chars (fun c => negb (p c)) s = true.
Proof.
  induction s as [|a s IH]; [done|]. simpl.
  destruct (p a); simpl; [done|]. exact IH.
Qed.

Lemma space_not_digit (c : ascii) : is_space c = true -> is_digit c = false.
Proof.
  unfold is_space, is_digit. generalize (code c). intros n H.
  apply andb_false_iff.
  repeat (apply orb_true_iff in H as [H|H]);
    repeat (apply andb_true_iff in H as [? H]);
    repeat match goal with
           | H : (_ <=? _)%N = true |- _ => apply N.leb_le in H
           | H : (_ =? _)%N = true |- _ => apply N.eqb_eq in H
           end;
    rewrite !N.leb_gt; lia.
Qed.

Lemma all_space_not_digit (s : string) :
  all_chars is_space s = true ->
  all_chars (fun c => negb (is_digit c)) s = true.
Proof.
  induction s as [|a s IH]; [done|]. simpl.
  intros [Ha Hs]%andb_true_iff. rewrite (space_not_digit a Ha). simpl. auto.
Qed.

(** ** The matcher *)

(** A successful repetition hands its continuation a split of the string
    whose first part lies in the class. *)
Lemma repeat_greedy_sound {R : Type} (p : ascii -> bool) (s : string)
    (k : string -> string -> option R) (x : R) :
  repeat_greedy p s k = Some x ->
  exists m r, s = m +:+ r /\ all_chars p m = true /\ k m r = Some x.
Proof.
  revert k. induction s as [|c s IH]; intros k H; simpl in H.
  - by exists "", "".
  - destruct (p c) eqn:Hc.
    + destruct (repeat_greedy p s _) as [y|] eqn:E.
      * inversion H; subst y. apply IH in E as (m & r & -> & Hm & Hk).
        exists (String c m), r. simpl. by rewrite Hc, Hm.
      * by exists "", (String c s).
    + by exists "", (String c s).
Qed.

(** The longest run is tried first. *)
Lemma repeat_greedy_max {R : Type} (p : ascii -> bool) (m r : string)
    (k : string -> string -> option R) (x : R) :
  all_chars p m = true -> stops p r = true -> k m r = Some x ->
  repeat_greedy p (m +:+ r) k = Some x.
Proof.
  revert k. induction m as [|c m IH]; intros k Hm Hr Hk.
  - destruct r as [|c r]; simpl in *; [done|].
    apply negb_true_iff in Hr. by rewrite Hr.
  - simpl in Hm. apply andb_true_iff in Hm as [Hc Hm].
    rewrite str_app_cons. simpl. rewrite Hc.
    by rewrite (IH (fun m' r' => k (String c m') r')).
Qed.

(** When the continuation refuses the longest run, the last character is
    given back and the run one shorter is tried next. *)
Lemma repeat_greedy_back {R : Type} (p : ascii -> bool) (m : string)
    (c : ascii) (r : string) (k : string -> string -> option R) (x : R) :
  all_chars p m = true -> p c = true -> stops p r = true ->
  k (m +:+ String c "") r = None ->
  k m (String c r) = Some x ->
  repeat_greedy p (m +:+ String c r) k = Some x.
Proof.
  revert k. induction m as [|a m IH]; intros k Hm Hc Hr Hlong Hk.
  - simpl. rewrite Hc.
    assert (repeat_greedy p r (fun m' r' => k (String c m') r') = None) as ->;
      [|done].
    destruct r as [|b r]; simpl in *; [done|].
    apply negb_true_iff in Hr. by rewrite Hr.
  - simpl in Hm. apply andb_true_iff in Hm as [Ha Hm].
    rewrite str_app_cons. simpl. rewrite Ha.
    by rewrite (IH (fun m' r' => k (String a m') r')).
Qed.

(** What a full match of the first pattern consists of. *)
Lemma name_with_elevation_inv (s : string) (gs : list string) :
  fullmatch name_with_elevation_pattern s = Some gs ->
  exists g1 w g2 g3,
    gs = [g1; g2; g3] /\ s = g1 +:+ w +:+ g2 +:+ g3 /\
    all_chars (fun c => negb (is_digit c)) g1 = true /\
    all_chars is_space w = true /\ nonempty w = true /\
    all_chars is_digit g2 = true /\ nonempty g2 = true /\
    all_chars (fun c => negb (is_newline c)) g3 = true.
Proof.
  unfold fullmatch, name_with_elevation_pattern. simpl. intros H.
  apply repeat_greedy_sound in H as (g1 & r1 & -> & H1 & H).
  destruct (repeat_greedy _ r1 _) as [gs1|] eqn:E1; [|done].
  apply repeat_greedy_sound in E1 as (w & r2 & -> & Hw & E1).
  destruct (nonempty w) eqn:Hnw; [|done].
  destruct (repeat_greedy _ r2 _) as [gs2|] eqn:E2; [|done].
  apply repeat_greedy_sound in E2 as (g2 & r3 & -> & H2 & E2).
  destruct (nonempty g2) eqn:Hn2; [|done].
  destruct (repeat_greedy _ r3 _) as [gs3|] eqn:E3; [|done].
  apply repeat_greedy_sound in E3 as (g3 & r4 & -> & H3 & E3).
  destruct r4; [|done]. simpl in E3. simplify_eq.
  exists g1, w, g2, g3. rewrite str_app_nil_r. repeat split; solve [reflexivity | assumption].
Qed.

(** What a full match of the second pattern consists of. *)
Lemma only_elevation_inv (s : string) (gs : list string) :
  fullmatch only_elevation_pattern s = Some gs ->
  exists g1 w g2,
    gs = [g1; g2] /\ s = g1 +:+ w +:+ g2 /\
    all_chars is_digit g1 = true /\ nonempty g1 = true.
Proof.
  unfold fullmatch, only_elevation_pattern. simpl. intros H.
  apply repeat_greedy_sound in H as (g1 & r1 & -> & H1 & H).
  destruct (nonempty g1) eqn:Hn1; [|done].
  destruct (repeat_greedy _ r1 _) as [gs1|] eqn:E1; [|done].
  apply repeat_greedy_sound in E1 as (w & r2 & -> & Hw & E1).
  destruct (repeat_greedy _ r2 _) as [gs2|] eqn:E2; [|done].
  apply repeat_greedy_sound in E2 as (g2 & r3 & -> & H2 & E2).
  destruct r3; [|done]. simpl in E2. simplify_eq.
  exists g1, w, g2. rewrite str_app_nil_r. repeat split; solve [reflexivity | assumption].
Qed.

(** A name that matches holds a digit; the name part of a match holds none. *)
Lemma classify_has_digit (name : string) (m : NameMatch) :
  classify name = Some m -> any_char is_digit name = true.
Proof.
  unfold classify. intros H.
  destruct (fullmatch name_with_elevation_pattern name) as [gs|] eqn:E1.
  - apply name_with_elevation_inv in E1
      as (g1 & w & g2 & g3 & _ & -> & _ & _ & _ & H2 & Hn2 & _).
    rewrite !any_char_app, (all_chars_any _ _ Hn2 H2).
    by rewrite !orb_true_r.
  - destruct (fullmatch only_elevation_pattern name) as [gs|] eqn:E2; [|done].
    apply only_elevation_inv in E2 as (g1 & w & g2 & _ & -> & H1 & Hn1).
    by rewrite !any_char_app, (all_chars_any _ _ Hn1 H1).
Qed.

Lemma classify_name_part (name : string) (m : NameMatch) :
  classify name = Some m -> any_char is_digit (name_without_ele m) = false.
Proof.
  unfold classify. intros H.
  destruct (fullmatch name_with_elevation_pattern name) as [gs|] eqn:E1.
  - apply name_with_elevation_inv in E1
      as (g1 & w & g2 & g3 & -> & _ & H1 & _).
    simplify_eq. simpl. by apply all_not_any.
  - destruct (fullmatch only_elevation_pattern name) as [gs|]; by simplify_eq.
Qed.

Lemma classify_no_digit (name : string) :
  any_char is_digit name = false -> classify name = None.
Proof.
  intros H. destruct (classify name) as [m|] eqn:E; [|done].
  apply classify_has_digit in E. congruence.
Qed.

Lemma classify_name_part_again (name : string) (m : NameMatch) :
  classify name = Some m -> classify (name_without_ele m) = None.
Proof. intros H. by apply classify_no_digit, (classify_name_part name). Qed.

Lemma match_here_cons (a : atom) (pat : pattern) (s : string) :
  match_here (a :: pat) s
  = repeat_greedy (in_class (cls a)) s (fun m r =>
      if admits (rep a) m then
        match match_here pat r with
        | Some gs => Some (if captured a then m :: gs else gs)
        | None => None
        end
      else None).
Proof. reflexivity. Qed.

(** A run of digits, and nothing after it, for the last two groups. *)
Lemma match_digits_to_end (ds : string) :
  all_chars is_digit ds = true -> nonempty ds = true ->
  match_here [Atom true Digit Plus; Atom true Dot Star] ds = Some [ds; ""].
Proof.
  intros Hd Hn. rewrite <- (str_app_nil_r ds) at 1. simpl.
  apply repeat_greedy_max; [exact Hd|done|]. by rewrite Hn.
Qed.

Lemma digits_do_not_start_with_space (ds : string) :
  all_chars is_digit ds = true -> stops is_space ds = true.
Proof.
  destruct ds as [|d ds]; [done|]. simpl. intros [Hd _]%andb_true_iff.
  destruct (is_space d) eqn:E; [|done].
  apply space_not_digit in E. congruence.
Qed.

Lemma match_space_then_digits (w : ascii) (ds : string) :
  is_space w = true -> all_chars is_digit ds = true -> nonempty ds = true ->
  match_here [Atom false Space Plus; Atom true Digit Plus; Atom true Dot Star]
             (String w ds) = Some [ds; ""].
Proof.
  intros Hw Hd Hn.
  change (String w ds) with (String w "" +:+ ds).
  rewrite match_here_cons. apply repeat_greedy_max.
  - simpl. by rewrite Hw.
  - by apply digits_do_not_start_with_space.
  - by rewrite match_digits_to_end.
Qed.

Lemma match_digits_without_space (ds : string) :
  all_chars is_digit ds = true ->
  match_here [Atom false Space Plus; Atom true Digit Plus; Atom true Dot Star]
             ds = None.
Proof.
  intros Hd. apply digits_do_not_start_with_space in Hd.
  destruct ds as [|d ds]; [done|]. simpl in *.
  apply negb_true_iff in Hd. by rewrite Hd.
Qed.

(** The first pattern on a prefix without digits, whitespace and digits:
    group 1 runs up to the last whitespace character before the digits. *)
Lemma fullmatch_prefix_ws_digits (prefix ws : string) (w : ascii)
    (digits : string) :
  all_chars (fun c => negb (is_digit c)) prefix = true ->
  all_chars is_space ws = true -> is_space w = true ->
  all_chars is_digit digits = true -> nonempty digits = true ->
  fullmatch name_with_elevation_pattern (prefix +:+ ws +:+ String w digits)
  = Some [prefix +:+ ws; digits; ""].
Proof.
  intros Hp Hws Hw Hd Hn. rewrite <- str_app_assoc.
  unfold fullmatch, name_with_elevation_pattern.
  rewrite match_here_cons. apply repeat_greedy_back.
  - rewrite all_chars_app. apply andb_true_iff.
    split; [exact Hp | exact (all_space_not_digit ws Hws)].
  - simpl. by rewrite (space_not_digit w Hw).
  - destruct digits as [|d ds]; [done|]. simpl in *.
    apply andb_true_iff in Hd as [-> _]. done.
  - by rewrite match_digits_without_space.
  - by rewrite match_space_then_digits.
Qed.

(** ** The monad *)

Lemma bind_ret {A B : Type} (a : A) (k : A -> M B) : bind (ret a) k = k a.
Proof. unfold bind, ret. by destruct (k a). Qed.

Lemma bind_raise {A B : Type} (e : py_error) (k : A -> M B) :
  bind (raise e) k = raise e.
Proof. reflexivity. Qed.

Lemma bind_silent {A B : Type} (m : M A) (a : A) (k : A -> M B) :
  m = ([], inr a) -> bind m k = k a.
Proof. intros ->. apply bind_ret. Qed.

Lemma bind_inr {A B : Type} (m : M A) (k : A -> M B) (l : list log_record)
    (b : B) :
  bind m k = (l, inr b) ->
  exists l1 a l2, m = (l1, inr a) /\ k a = (l2, inr b) /\ l = l1 ++ l2.
Proof.
  destruct m as [l1 [e|a]]; simpl; [done|].
  destruct (k a) as [l2 r] eqn:E. intros [= <- ->]. by exists l1, a, l2.
Qed.

Lemma bind_inl {A B : Type} (m : M A) (k : A -> M B) (l : list log_record)
    (e : py_error) :
  m = (l, inl e) -> bind m k = (l, inl e).
Proof. by intros ->. Qed.

(** C3 does not hold of the script: the whitespace between prefix and digits
    is meant for [\s+], outside group 1, but the greedy group 1 takes it and
    gives back a single character. With two blanks in "Storefjell  1200" the
    name part is "Storefjell " and that value, trailing blank included, is
    written to the name tag, where the prefix trimmed is "Storefjell". *)
Theorem C3_blank_stays_in_name_part :
  trim_trailing_ws "Storefjell" = "Storefjell" /\
  classify "Storefjell  1200" = Some (mkNameMatch "Storefjell " "1200" "") /\
  run_with (dtm 1195) (osm [peak_named "8" "Storefjell  1200" []])
  = ([], inr (osm [peak_fixed "8" "Storefjell " [] "1200" "Storefjell  1200"
                     "1195"])).
Proof. repeat split; reflexivity. Qed.

(** ** The tag scan *)

Lemma has_key_distinct (k1 k2 : string) (e : Element) :
  k1 <> k2 -> has_key k1 e = true -> has_key k2 e = false.
Proof.
  unfold has_key. intros Hne [_ H]%andb_true_iff.
  apply bool_decide_eq_true in H. rewrite H.
  apply andb_false_iff. right. apply bool_decide_eq_false. congruence.
Qed.

Lemma scan_step_name (refs : tag_refs) (i : nat) (e : Element) :
  name_tag (scan_step refs i e)
  = if has_key "name" e then Some (i, e) else name_tag refs.
Proof.
  unfold scan_step, has_key.
  destruct (ET.get e "k") as [k|];
    repeat case_decide; repeat case_bool_decide; by simplify_eq/=.
Qed.

Lemma scan_step_ele (refs : tag_refs) (i : nat) (e : Element) :
  ele_tag (scan_step refs i e)
  = if has_key "ele" e then Some (i, e) else ele_tag refs.
Proof.
  unfold scan_step, has_key.
  destruct (ET.get e "k") as [k|];
    repeat case_decide; repeat case_bool_decide; by simplify_eq/=.
Qed.

Lemma scan_step_natural (refs : tag_refs) (i : nat) (e : Element) :
  natural_tag (scan_step refs i e)
  = if has_key "natural" e then Some (i, e) else natural_tag refs.
Proof.
  unfold scan_step, has_key.
  destruct (ET.get e "k") as [k|];
    repeat case_decide; repeat case_bool_decide; by simplify_eq/=.
Qed.

(** Each variable of the loop ends up on the last tag with its key. *)
Lemma scan_from_last (i : nat) (l : list Element) (refs : tag_refs) :
  name_tag (scan_from i l refs)
    = from_option Some (name_tag refs) (last_tag_from "name" i l) /\
  ele_tag (scan_from i l refs)
    = from_option Some (ele_tag refs) (last_tag_from "ele" i l) /\
  natural_tag (scan_from i l refs)
    = from_option Some (natural_tag refs) (last_tag_from "natural" i l).
Proof.
  revert i refs. induction l as [|e l IH]; intros i refs; [done|].
  simpl. destruct (IH (S i) (scan_step refs i e)) as (-> & -> & ->).
  rewrite scan_step_name, scan_step_ele, scan_step_natural.
  repeat split.
  - destruct (last_tag_from "name" (S i) l); [done|]. by destruct (has_key "name" e).
  - destruct (last_tag_from "ele" (S i) l); [done|]. by destruct (has_key "ele" e).
  - destruct (last_tag_from "natural" (S i) l); [done|].
    by destruct (has_key "natural" e).
Qed.

Lemma scan_tags_last (node_element : Element) :
  name_tag (scan_tags node_element) = last_tag "name" node_element /\
  ele_tag (scan_tags node_element) = last_tag "ele" node_element /\
  natural_tag (scan_tags node_element) = last_tag "natural" node_element.
Proof.
  unfold scan_tags, last_tag.
  destruct (scan_from_last 0 (children node_element) no_refs) as (-> & -> & ->).
  repeat split; by destruct (last_tag_from _ 0 _).
Qed.

Lemma last_tag_from_None (key : string) (i : nat) (l : list Element) :
  last_tag_from key i l = None <->
  forall k e, l !! k = Some e -> has_key key e = false.
Proof.
  revert i. induction l as [|a l IH]; intros i; [done|]. simpl. split.
  - intros H. destruct (last_tag_from key (S i) l) eqn:E; [done|].
    destruct (has_key key a) eqn:Ha; [done|].
    intros [|k] e Hk; simpl in Hk; [by simplify_eq|].
    by apply (proj1 (IH (S i)) E k e).
  - intros H.
    rewrite (proj2 (IH (S i)) (fun k e Hk => H (S k) e Hk)).
    by rewrite (H 0 a eq_refl).
Qed.

(** Where the last tag with a key sits. *)
Lemma last_tag_from_Some (key : string) (i : nat) (l : list Element)
    (j : nat) (e : Element) :
  last_tag_from key i l = Some (j, e) ->
  exists k, j = i + k /\ l !! k = Some e /\ has_key key e = true /\
            forall k' e', k < k' -> l !! k' = Some e' -> has_key key e' = false.
Proof.
  revert i. induction l as [|a l IH]; intros i H; [done|]. simpl in H.
  destruct (last_tag_from key (S i) l) as [r|] eqn:E.
  - inversion H; subst r. apply IH in E as (k & -> & Hk & He & Hlast).
    exists (S k). split; [lia|]. split; [done|]. split; [done|].
    intros [|k'] e' Hlt Hk'; [lia|]. apply (Hlast k' e'); [lia|done].
  - destruct (has_key key a) eqn:Ha; [|done]. inversion H; subst.
    exists 0. split; [lia|]. split; [done|]. split; [done|].
    intros [|k'] e' Hlt Hk'; [lia|]. simpl in Hk'.
    by apply (proj1 (last_tag_from_None key (S j) l) E k' e').
Qed.

Lemma last_tag_from_app (key : string) (i : nat) (l1 l2 : list Element) :
  last_tag_from key i (l1 ++ l2)
  = from_option Some (last_tag_from key i l1)
                (last_tag_from key (i + length l1) l2).
Proof.
  revert i. induction l1 as [|a l1 IH]; intros i; simpl.
  - rewrite Nat.add_0_r. by destruct (last_tag_from key i l2).
  - rewrite IH. replace (S i + length l1) with (i + S (length l1)) by lia.
    by destruct (last_tag_from key (i + S (length l1)) l2).
Qed.

(** Replacing a child by one with the same key answer moves no variable. *)
Lemma last_tag_from_insert_other (key : string) (i k : nat)
    (l : list Element) (e e' : Element) :
  l !! k = Some e -> has_key key e = false -> has_key key e' = false ->
  last_tag_from key i (<[k := e']> l) = last_tag_from key i l.
Proof.
  revert i k. induction l as [|a l IH]; intros i k Hk He He'; [done|].
  destruct k as [|k]; simpl in *.
  - simplify_eq. by rewrite He, He'.
  - by rewrite (IH (S i) k Hk He He').
Qed.

Lemma last_tag_from_insert_same (key : string) (i k : nat)
    (l : list Element) (e e' : Element) :
  last_tag_from key i l = Some (i + k, e) -> has_key key e' = true ->
  last_tag_from key i (<[k := e']> l) = Some (i + k, e').
Proof.
  revert i k. induction l as [|a l IH]; intros i k H He'; [done|].
  simpl in H. destruct k as [|k]; simpl.
  - destruct (last_tag_from key (S i) l) as [[j b]|] eqn:E.
    + apply last_tag_from_Some in E as (k' & -> & _). simplify_eq. lia.
    + by rewrite He', Nat.add_0_r.
  - destruct (last_tag_from key (S i) l) as [r|] eqn:E.
    + simplify_eq. replace (i + S k) with (S i + k) in * by lia.
      by rewrite (IH (S i) k E He').
    + destruct (has_key key a); simplify_eq. lia.
Qed.

(** ** The script, step by step *)

Section Run.

Variable float : string -> option Q.
Variable str_float : Q -> string.
Variable urlopen : string -> list coord -> http_reply.

Lemma logged_bind {A B : Type} (m : M A) (k : A -> M B) :
  logged m = [] -> (forall a, logged (k a) = []) -> logged (bind m k) = [].
Proof.
  destruct m as [l [e|a]]; simpl; intros -> Hk; [done|].
  specialize (Hk a). by destruct (k a) as [l' r]; simpl in *; subst.
Qed.

Lemma float_of_silent (v : option string) : logged (float_of float v) = [].
Proof. destruct v as [s|]; [|done]. simpl. by destruct (float s). Qed.

Lemma float_of_Some (s : string) (q : Q) :
  float s = Some q -> float_of float (Some s) = ret q.
Proof. unfold float_of. by intros ->. Qed.

Lemma float_of_None (s : string) :
  float s = None -> float_of float (Some s) = raise ValueError.
Proof. unfold float_of. by intros ->. Qed.

Lemma get_coord_silent (n : Element) : logged (get_coord float n) = [].
Proof.
  unfold get_coord.
  apply logged_bind; [apply float_of_silent|]. intros lon.
  apply logged_bind; [apply float_of_silent|done].
Qed.

Lemma query_batches_silent (endpoint : string) (bs : list (list coord))
    (st : elevation_dict * list coord) :
  logged (query_batches urlopen endpoint bs st) = [].
Proof.
  revert st. induction bs as [|b bs IH]; intros st; [done|]. simpl.
  destruct (urlopen endpoint b); [done|]. apply IH.
Qed.

Lemma get_elevation_silent (coords : list coord) :
  logged (get_elevation urlopen coords) = [].
Proof.
  unfold get_elevation, query_endpoint.
  apply logged_bind; [apply query_batches_silent|]. intros [d p].
  apply logged_bind; [apply query_batches_silent|done].
Qed.

Lemma dmt_ele_of_silent (n : Element) :
  logged (dmt_ele_of float urlopen n) = [].
Proof.
  unfold dmt_ele_of.
  apply logged_bind; [apply get_coord_silent|]. intros c.
  apply logged_bind; [apply get_elevation_silent|]. intros d.
  unfold subscript. by destruct (dict_get c d).
Qed.

(** The only exception that [get_elevation] raises is the [HTTPError] of
    a request, and the first one ends it. *)
Lemma query_batches_error (endpoint : string) (bs : list (list coord))
    (st : elevation_dict * list coord) (e : py_error) :
  outcome (query_batches urlopen endpoint bs st) = inl e ->
  e = HTTPError /\ exists b, b ∈ bs /\ urlopen endpoint b = http_error.
Proof.
  revert st. induction bs as [|b bs IH]; intros st; [done|]. simpl.
  destruct (urlopen endpoint b) eqn:E.
  - intros [= <-]. split; [done|]. exists b. split; [left|done].
  - intros H. apply IH in H as (-> & b' & Hb' & E'). split; [done|].
    exists b'. split; [by right|done].
Qed.

Lemma get_elevation_first_request_fails (c : coord) :
  urlopen "datakilder/dtm1/punkt" [c] = http_error ->
  get_elevation urlopen [c] = ([], inl HTTPError).
Proof. intros H. unfold get_elevation. simpl. by rewrite H. Qed.

(** *** Tags made by the rewriter *)

Lemma mk_tag_element_tag (k : string) (v : pyvalue) :
  tag (mk_tag_element str_float k v) = "tag".
Proof. reflexivity. Qed.

Lemma mk_tag_element_key (k : string) (v : pyvalue) :
  ET.get (mk_tag_element str_float k v) "k" = Some k.
Proof.
  unfold mk_tag_element, ET.get, ET.set. simpl.
  rewrite lookup_insert_ne by done. apply lookup_insert_eq.
Qed.

Lemma mk_tag_element_has_key (k key : string) (v : pyvalue) :
  has_key key (mk_tag_element str_float k v) = bool_decide (k = key).
Proof.
  unfold has_key. rewrite mk_tag_element_key, mk_tag_element_tag. simpl.
  apply bool_decide_ext. split; congruence.
Qed.

Lemma rewrite_node_children (n : Element) (i : nat) (e : Element)
    (m : NameMatch) (name : string) (dmt : pynum) :
  children (rewrite_node str_float n i e m name dmt)
  = <[i := ET.set e "v" (name_without_ele m)]> (children n)
    ++ [mk_tag_element str_float "ele" (VStr (ele m));
        mk_tag_element str_float "NOTE" (VStr "fixed name with elevation");
        mk_tag_element str_float "name:original" (VStr name);
        mk_tag_element str_float "ele:kartverket-dmt" (VNum dmt)].
Proof. unfold rewrite_node, ET.append. simpl. by rewrite <- !(assoc_L (++)). Qed.

Lemma rewrite_node_tag (n : Element) (i : nat) (e : Element)
    (m : NameMatch) (name : string) (dmt : pynum) :
  tag (rewrite_node str_float n i e m name dmt) = tag n /\
  attrib (rewrite_node str_float n i e m name dmt) = attrib n.
Proof. done. Qed.

Lemma rewrite_node_changes (n : Element) (i : nat) (e : Element)
    (m : NameMatch) (name : string) (dmt : pynum) :
  rewrite_node str_float n i e m name dmt <> n.
Proof.
  intros H. apply (f_equal (fun x => length (children x))) in H.
  rewrite rewrite_node_children, length_app, length_insert in H.
  simpl in H. lia.
Qed.

(** *** The validator *)

Lemma validate_remainder (n : Element) (refs : tag_refs) (i : nat)
    (e : Element) (name : string) (m : NameMatch) :
  nonempty (rest m) = true ->
  validate_and_rewrite float str_float urlopen n refs i e name m
  = ([Skipping name], inr n).
Proof. intros H. unfold validate_and_rewrite. by rewrite H. Qed.

Lemma validate_inr (n : Element) (refs : tag_refs) (i : nat)
    (e : Element) (name : string) (m : NameMatch)
    (l : list log_record) (n' : Element) :
  validate_and_rewrite float str_float urlopen n refs i e name m
    = (l, inr n') ->
  n' = n \/
  (l = [] /\ nonempty (rest m) = false /\
   exists dmt claimed,
     dmt_ele_of float urlopen n = ([], inr (Some dmt)) /\
     float (ele m) = Some claimed /\
     Qgtb (Qabs (num_value dmt - claimed)) 20 = false /\
     n' = rewrite_node str_float n i e m name dmt).
Proof.
  unfold validate_and_rewrite.
  destruct (nonempty (rest m)) eqn:Hrest; [unfold bind, warning, ret; simpl; intros ?; simplify_eq; by left|].
  pose proof (dmt_ele_of_silent n) as Hs.
  destruct (dmt_ele_of float urlopen n) as [l0 [err|dmt_ele]] eqn:Hd;
    simpl in Hs; subst l0; [done|].
  change ([], inr dmt_ele) with (ret (A:=option pynum) dmt_ele).
  rewrite bind_ret.
  destruct (float (ele m)) as [claimed|] eqn:Hf;
    [rewrite (float_of_Some _ _ Hf), bind_ret
    |by rewrite (float_of_None _ Hf)].
  destruct dmt_ele as [dmt|]; [|done].
  destruct (Qgtb (Qabs (num_value dmt - claimed)) 20) eqn:Hdtm;
    [unfold bind, warning, ret; intros ?; simplify_eq; by left|].
  assert (forall l n', (l, inr n')
            = ret (rewrite_node str_float n i e m name dmt) ->
          n' = n \/ l = [] /\ false = false /\
            exists dmt0 claimed0,
              (@nil log_record, @inr py_error _ (Some dmt))
                = ([], inr (Some dmt0)) /\ Some claimed = Some claimed0 /\
              Qgtb (Qabs (num_value dmt0 - claimed0)) 20 = false /\
              n' = rewrite_node str_float n i e m name dmt0) as Hacc.
  { intros l1 n1 H. unfold ret in H. simplify_eq. right.
    split; [done|]. split; [done|]. by exists dmt, claimed. }
  destruct (truthy (existing_ele_of (ele_tag refs))); [|by intros H; apply Hacc].
  rewrite bind_ret.
  destruct (float_of float (existing_ele_of (ele_tag refs)))
    as [l0 [err|existing]] eqn:He.
  { pose proof (float_of_silent (existing_ele_of (ele_tag refs))) as Hs.
    rewrite He in Hs. simpl in Hs. subst l0. done. }
  pose proof (float_of_silent (existing_ele_of (ele_tag refs))) as Hs.
  rewrite He in Hs. simpl in Hs. subst l0.
  change ([], inr existing) with (ret (A:=Q) existing). rewrite bind_ret.
  destruct (Qgtb (Qabs (claimed - existing)) 10);
    [unfold bind, warning, ret; intros ?; simplify_eq; by left|by intros H; apply Hacc].
Qed.

(** *** One node *)

Lemma process_node_candidate (n : Element) (i : nat) (e : Element)
    (name : string) (m : NameMatch) :
  candidate_match n i e name m ->
  process_node float str_float urlopen n
  = validate_and_rewrite float str_float urlopen n (scan_tags n) i e name m.
Proof.
  intros ((j & ne & Hnat & Hpeak) & Hname & Hv & Hm).
  unfold process_node. by rewrite Hnat, Hpeak, Hname, Hv, Hm.
Qed.

(** A node whose name tag matches neither pattern is passed over. *)
Lemma process_node_no_match (n : Element) (i : nat) (e : Element)
    (name : string) :
  name_tag (scan_tags n) = Some (i, e) -> ET.get e "v" = Some name ->
  classify name = None ->
  process_node float str_float urlopen n = ret n.
Proof.
  intros Hname Hv Hm. unfold process_node.
  destruct (natural_tag (scan_tags n)) as [[j ne]|]; [|done].
  destruct (not_peak_or_hill (ET.get ne "v")); [done|].
  by rewrite Hname, Hv, Hm.
Qed.

(** A node that comes back from an iteration is the node that went in,
    or its rewriting by lines 174-178 after both checks have passed. *)
Lemma process_node_inr (n : Element) (l : list log_record) (n' : Element) :
  process_node float str_float urlopen n = (l, inr n') ->
  n' = n \/
  (l = [] /\
   exists i e name m dmt claimed,
     candidate_match n i e name m /\ nonempty (rest m) = false /\
     dmt_ele_of float urlopen n = ([], inr (Some dmt)) /\
     float (ele m) = Some claimed /\
     Qgtb (Qabs (num_value dmt - claimed)) 20 = false /\
     n' = rewrite_node str_float n i e m name dmt).
Proof.
  unfold process_node.
  destruct (natural_tag (scan_tags n)) as [[j ne]|] eqn:Hnat;
    [|intros [= <- <-]; by left].
  destruct (not_peak_or_hill (ET.get ne "v")) eqn:Hpeak;
    [intros [= <- <-]; by left|].
  destruct (name_tag (scan_tags n)) as [[i e]|] eqn:Hname;
    [|intros [= <- <-]; by left].
  destruct (ET.get e "v") as [name|] eqn:Hv; [|done].
  destruct (classify name) as [m|] eqn:Hm; [|intros [= <- <-]; by left].
  intros H. apply validate_inr in H
    as [->|(-> & Hrest & dmt & claimed & Hd & Hf & Hq & ->)]; [by left|].
  right. split; [done|]. exists i, e, name, m, dmt, claimed.
  repeat split; try done. by exists j, ne.
Qed.

(** *** A rewritten node, scanned again *)

Lemma has_key_set_v (key : string) (e : Element) (v : string) :
  has_key key (ET.set e "v" v) = has_key key e.
Proof.
  unfold has_key, ET.set, ET.get. simpl. by rewrite lookup_insert_ne.
Qed.

Lemma appended_tags_keys (key : string) (i : nat) (m : NameMatch)
    (name : string) (dmt : pynum) :
  key = "name" \/ key = "natural" ->
  last_tag_from key i
    [mk_tag_element str_float "ele" (VStr (ele m));
     mk_tag_element str_float "NOTE" (VStr "fixed name with elevation");
     mk_tag_element str_float "name:original" (VStr name);
     mk_tag_element str_float "ele:kartverket-dmt" (VNum dmt)] = None.
Proof.
  intros Hkey. simpl. rewrite !mk_tag_element_has_key.
  by destruct Hkey as [-> | ->].
Qed.

Lemma rewritten_name_tag (n : Element) (i : nat) (e : Element)
    (name : string) (m : NameMatch) (dmt : pynum) :
  name_tag (scan_tags n) = Some (i, e) ->
  name_tag (scan_tags (rewrite_node str_float n i e m name dmt))
  = Some (i, ET.set e "v" (name_without_ele m)).
Proof.
  intros Hname.
  destruct (scan_tags_last n) as (Hn & _). rewrite Hname in Hn. symmetry in Hn.
  destruct (scan_tags_last (rewrite_node str_float n i e m name dmt))
    as (-> & _).
  unfold last_tag in *. rewrite rewrite_node_children, last_tag_from_app.
  rewrite appended_tags_keys by auto. simpl.
  pose proof Hn as (k & -> & _ & He & _)%last_tag_from_Some.
  apply (last_tag_from_insert_same "name" 0 k _ e); [done|].
  by rewrite has_key_set_v.
Qed.

Lemma rewritten_natural_tag (n : Element) (i : nat) (e : Element)
    (name : string) (m : NameMatch) (dmt : pynum) :
  name_tag (scan_tags n) = Some (i, e) ->
  natural_tag (scan_tags (rewrite_node str_float n i e m name dmt))
  = natural_tag (scan_tags n).
Proof.
  intros Hname.
  destruct (scan_tags_last n) as (Hn & _ & ->). rewrite Hname in Hn.
  symmetry in Hn.
  destruct (scan_tags_last (rewrite_node str_float n i e m name dmt))
    as (_ & _ & ->).
  unfold last_tag in *. rewrite rewrite_node_children, last_tag_from_app.
  rewrite appended_tags_keys by auto. simpl.
  pose proof Hn as (k & -> & Hk & He & _)%last_tag_from_Some.
  apply (last_tag_from_insert_other "natural" 0 k _ e); [done|..].
  - by apply (has_key_distinct "name").
  - rewrite has_key_set_v. by apply (has_key_distinct "name").
Qed.

(** *** The loop *)

Lemma process_nodes_inr (ns : list Element) (l : list log_record)
    (ns' : list Element) :
  process_nodes float str_float urlopen ns = (l, inr ns') ->
  Forall2 (fun n n' => exists l1,
             process_node float str_float urlopen n = (l1, inr n')) ns ns'.
Proof.
  revert l ns'. induction ns as [|n ns IH]; intros l ns' H; simpl in H.
  - unfold ret in H. simplify_eq. constructor.
  - apply bind_inr in H as (l1 & n1 & l2 & Hn & H & ->).
    apply bind_inr in H as (l3 & ns1 & l4 & Hns & H & ->).
    unfold ret in H. simplify_eq. constructor; [by exists l1|by eapply IH].
Qed.

(** An exception in one iteration ends the loop with the records logged
    so far. *)
Lemma process_nodes_raise (pre : list Element) (n : Element)
    (post : list Element) (l0 : list log_record) (pre' : list Element)
    (l1 : list log_record) (err : py_error) :
  process_nodes float str_float urlopen pre = (l0, inr pre') ->
  process_node float str_float urlopen n = (l1, inl err) ->
  process_nodes float str_float urlopen (pre ++ n :: post)
  = (l0 ++ l1, inl err).
Proof.
  revert l0 pre'. induction pre as [|a pre IH]; intros l0 pre' Hpre Hn.
  - simpl in *. unfold ret in Hpre. simplify_eq. by rewrite Hn.
  - simpl in *.
    apply bind_inr in Hpre as (la & a' & l2 & Ha & H & ->).
    apply bind_inr in H as (l3 & ns1 & l4 & Hns & H & ->).
    unfold ret in H. simplify_eq.
    rewrite Ha. simpl. rewrite (IH _ _ Hns Hn). simpl.
    by rewrite app_nil_r, (assoc_L (++)).
Qed.

Lemma main_inr (root : Element) (l : list log_record) (root' : Element) :
  main float str_float urlopen root = (l, inr root') ->
  process_nodes float str_float urlopen (children root)
    = (l, inr (children root')) /\
  tag root' = tag root /\ attrib root' = attrib root.
Proof.
  unfold main. intros H. apply bind_inr in H as (l1 & ns & l2 & Hns & H & ->).
  unfold ret in H. simplify_eq. simpl. by rewrite app_nil_r.
Qed.

End Run.

(** ** What the validator decides *)

Section Decision.

Variable float : string -> option Q.
Variable str_float : Q -> string.
Variable urlopen : string -> list coord -> http_reply.

Variables (n : Element) (refs : tag_refs) (i : nat) (e : Element).
Variables (name : string) (m : NameMatch) (dmt : pynum) (claimed : Q).

Hypothesis no_remainder : nonempty (rest m) = false.
Hypothesis looked_up : dmt_ele_of float urlopen n = ([], inr (Some dmt)).
Hypothesis parsed : float (ele m) = Some claimed.

(** An [ele] tag without children counts as no tag at all. *)
Lemma childless_ele_tag_is_ignored (j : nat) (ele_el : Element) :
  children ele_el = [] -> truthy (existing_ele_of (Some (j, ele_el))) = false.
Proof. intros H. unfold existing_ele_of, ET.truth. by rewrite H. Qed.

(** Without a usable existing elevation the terrain model decides alone. *)
Lemma validate_without_existing :
  truthy (existing_ele_of (ele_tag refs)) = false ->
  validate_and_rewrite float str_float urlopen n refs i e name m
  = if Qle_bool (Qabs (num_value dmt - claimed)) 20
    then ret (rewrite_node str_float n i e m name dmt)
    else ([Skipping_dmt_ele name dmt], inr n).
Proof.
  intros Hex. unfold validate_and_rewrite.
  rewrite no_remainder, looked_up.
  change ([], inr (Some dmt)) with (ret (A:=option pynum) (Some dmt)).
  rewrite bind_ret, (float_of_Some _ _ _ parsed), bind_ret, Hex.
  unfold Qgtb. by destruct (Qle_bool (Qabs (num_value dmt - claimed)) 20).
Qed.

(** With one, both bounds are tested, the terrain model first. *)
Lemma validate_with_existing (existing : Q) :
  truthy (existing_ele_of (ele_tag refs)) = true ->
  float_of float (existing_ele_of (ele_tag refs)) = ret existing ->
  validate_and_rewrite float str_float urlopen n refs i e name m
  = if Qle_bool (Qabs (num_value dmt - claimed)) 20 then
      if Qle_bool (Qabs (claimed - existing)) 10
      then ret (rewrite_node str_float n i e m name dmt)
      else ([Skipping_existing_ele name
               (default "" (existing_ele_of (ele_tag refs)))], inr n)
    else ([Skipping_dmt_ele name dmt], inr n).
Proof.
  intros Hex Hparse. unfold validate_and_rewrite.
  rewrite no_remainder, looked_up.
  change ([], inr (Some dmt)) with (ret (A:=option pynum) (Some dmt)).
  rewrite bind_ret, (float_of_Some _ _ _ parsed), !bind_ret, Hex, Hparse.
  rewrite bind_ret. unfold Qgtb.
  destruct (Qle_bool (Qabs (num_value dmt - claimed)) 20); [|done].
  by destruct (Qle_bool (Qabs (claimed - existing)) 10).
Qed.

(** An unknown elevation is no number to subtract from. *)
Lemma validate_unknown_elevation :
  dmt_ele_of float urlopen n = ([], inr None) ->
  validate_and_rewrite float str_float urlopen n refs i e name m
  = ([], inl TypeError).
Proof.
  intros Hnone. unfold validate_and_rewrite. rewrite no_remainder, Hnone.
  change ([], inr None) with (ret (A:=option pynum) None).
  by rewrite bind_ret, (float_of_Some _ _ _ parsed), bind_ret.
Qed.

End Decision.

(** ** Runs on the sample documents *)

Example run_storefjell :
  run_with (dtm 1195) (osm [storefjell]) = ([], inr (osm [storefjell_fixed])).
Proof. reflexivity. Qed.

(** A difference of 20 to the terrain model passes, 21 does not. *)
Example run_dtm_20 :
  run_with (dtm 1220) (osm [storefjell])
  = ([], inr (osm [peak_fixed "8" "Storefjell" [] "1200" "Storefjell 1200" "1220"])).
Proof. reflexivity. Qed.

Example run_dtm_21 :
  run_with (dtm 1221) (osm [storefjell])
  = ([Skipping_dmt_ele "Storefjell 1200" (PyInt 1221)], inr (osm [storefjell])).
Proof. reflexivity. Qed.

Example run_bare_1340 :
  run_with (dtm 1300) (osm [peak_named "8" "1340" []])
  = ([Skipping_dmt_ele "1340" (PyInt 1300)], inr (osm [peak_named "8" "1340" []])).
Proof. reflexivity. Qed.

(** When the [ele] tag element has a child, its value is compared: a
    difference of 10 passes, 11 does not, and a value that is no number
    raises [ValueError]. *)
Example run_existing_10_with_child :
  run_with (dtm 1195)
    (osm [peak_named "8" "Storefjell 1200" [tag_el_with_child "ele" "1190"]])
  = ([], inr (osm [peak_fixed "8" "Storefjell" [tag_el_with_child "ele" "1190"]
                     "1200" "Storefjell 1200" "1195"])).
Proof. reflexivity. Qed.

Example run_existing_11_with_child :
  run_with (dtm 1195)
    (osm [peak_named "8" "Storefjell 1200" [tag_el_with_child "ele" "1189"]])
  = ([Skipping_existing_ele "Storefjell 1200" "1189"],
     inr (osm [peak_named "8" "Storefjell 1200" [tag_el_with_child "ele" "1189"]])).
Proof. reflexivity. Qed.

Example run_unparsable_with_child :
  run_with (dtm 1195)
    (osm [peak_named "8" "Storefjell 1200" [tag_el_with_child "ele" "abc"]])
  = ([], inl ValueError).
Proof. reflexivity. Qed.

(** * The claims *)

(** ** The name classifier *)

(** The name part is not always the prefix with its trailing whitespace
    trimmed: with two blanks before the digits the first of them stays in
    it. *)
Lemma C3_trailing_whitespace_not_trimmed :
  ~ (forall prefix ws digits : string,
       all_chars (fun c => negb (is_digit c)) prefix = true ->
       all_chars is_space ws = true -> nonempty ws = true ->
       all_chars is_digit digits = true -> nonempty digits = true ->
       classify (prefix +:+ ws +:+ digits)
       = Some (mkNameMatch (trim_trailing_ws prefix) digits "")).
Proof.
  intros H.
  specialize (H "Storefjell" "  " "1200" eq_refl eq_refl eq_refl eq_refl eq_refl).
  vm_compute in H. discriminate H.
Qed.

(** What the first pattern does with a prefix without digits, whitespace
    and digits: group 1 takes the whitespace too and gives back one
    character only, so the name part is the text before the last whitespace
    character in front of the digits. *)
Theorem C3_name_part_up_to_last_whitespace
    (prefix ws : string) (w : ascii) (digits : string) :
  all_chars (fun c => negb (is_digit c)) prefix = true ->
  all_chars is_space ws = true -> is_space w = true ->
  all_chars is_digit digits = true -> nonempty digits = true ->
  classify (prefix +:+ ws +:+ String w digits)
  = Some (mkNameMatch (prefix +:+ ws) digits "").
Proof.
  intros Hp Hws Hw Hd Hn. unfold classify.
  by rewrite (fullmatch_prefix_ws_digits prefix ws w digits Hp Hws Hw Hd Hn).
Qed.

Lemma C3_name_part_witness :
  classify "Storefjell  1200" = Some (mkNameMatch "Storefjell " "1200" "").
Proof.
  exact (C3_name_part_up_to_last_whitespace "Storefjell" " " " " "1200"
           eq_refl eq_refl eq_refl eq_refl eq_refl).
Defined.

(** ** The tag scan *)

(** C8, as the specification words it, fails: the first tag with a key is
    not the one the loop keeps. A node with the name tags "Storefjell 1200"
    and "Storefjell", in this order, is judged by the second and left
    alone. *)
Lemma C8_first_tag_not_used :
  ~ (forall node_element : Element,
       name_tag (scan_tags node_element) = first_tag "name" node_element /\
       ele_tag (scan_tags node_element) = first_tag "ele" node_element /\
       natural_tag (scan_tags node_element) = first_tag "natural" node_element).
Proof.
  intros H. destruct (H twice_named) as (Hname & _).
  vm_compute in Hname. discriminate Hname.
Qed.

(** C8, amended: for each of the keys name, ele and natural the loop keeps
    the last tag with that key in document order, and that tag is the one
    the classification, the validation and the rewriting use. *)
Theorem C8_last_tag_is_used (node_element : Element) :
  name_tag (scan_tags node_element) = last_tag "name" node_element /\
  ele_tag (scan_tags node_element) = last_tag "ele" node_element /\
  natural_tag (scan_tags node_element) = last_tag "natural" node_element.
Proof. apply scan_tags_last. Qed.

Example run_twice_named :
  run_with (dtm 1195) (osm [twice_named]) = ([], inr (osm [twice_named])).
Proof. reflexivity. Qed.

(** ** Rejection on a remainder *)

(** C4: a candidate whose name matches with a non-empty remainder is
    rejected with the warning that names it and comes back unchanged,
    whatever the number parser and the elevation service are. *)
Theorem C4_remainder_rejects
    (float : string -> option Q) (str_float : Q -> string)
    (urlopen : string -> list coord -> http_reply)
    (node_element : Element) (i : nat) (name_el : Element) (name : string)
    (m : NameMatch) :
  candidate_match node_element i name_el name m ->
  rest m <> "" ->
  process_node float str_float urlopen node_element
  = ([Skipping name], inr node_element).
Proof.
  intros Hc Hrest. rewrite (process_node_candidate _ _ _ _ _ _ _ _ Hc).
  apply validate_remainder. by destruct (rest m).
Qed.

Lemma C4_remainder_witness :
  process_node float_decimal str_float_integral (service (dtm 2286)) snohetta
  = ([Skipping "Snohetta 2286 (highest)"], inr snohetta).
Proof.
  apply (C4_remainder_rejects _ _ _ snohetta 1
           (tag_el "name" "Snohetta 2286 (highest)") "Snohetta 2286 (highest)"
           (mkNameMatch "Snohetta" "2286" " (highest)")).
  - split; [|by vm_compute].
    exists 0, (tag_el "natural" "peak"). by vm_compute.
  - discriminate.
Defined.

(** ** Defects of the validator *)

(** C2 does not hold of the script: when both endpoints answer [null] for
    the coordinate, [dmt_ele] is [None] and line 166 raises [TypeError]; the
    run ends there and prints nothing. *)
Theorem C2_unknown_elevation_raises :
  run_with (flat None None) (osm [storefjell; eastern]) = ([], inl TypeError) /\
  printed (run_with (flat None None) (osm [storefjell; eastern])) = None.
Proof. split; reflexivity. Qed.

(** C1 does not hold of the script: an [ele] tag without child elements is
    false on line 157, so its value is never compared. With ele=1150, the
    name "Storefjell 1200" and a terrain height of 1198 the node is
    rewritten although the two elevations differ by 50. *)
Theorem C1_existing_ele_not_compared :
  run_with (dtm 1198)
    (osm [peak_named "8" "Storefjell 1200" [tag_el "ele" "1150"]])
  = ([], inr (osm [peak_fixed "8" "Storefjell" [tag_el "ele" "1150"]
                     "1200" "Storefjell 1200" "1198"])).
Proof. reflexivity. Qed.

(** C10 does not hold of the script, by the same test on line 157: an [ele]
    tag whose value is no number is not parsed at all, and the node is
    rewritten. *)
Theorem C10_unparsable_ele_not_parsed :
  float_decimal "abc" = None /\
  run_with (dtm 1195)
    (osm [peak_named "8" "Storefjell 1200" [tag_el "ele" "abc"]])
  = ([], inr (osm [peak_fixed "8" "Storefjell" [tag_el "ele" "abc"]
                     "1200" "Storefjell 1200" "1195"])).
Proof. split; reflexivity. Qed.

(** ** The rewriter *)

(** C6: a node that an iteration changes is a candidate whose last name tag
    gets the name part as its value, and that gains exactly four tags at the
    end, in this order: ele with the digits of the name, NOTE, name:original
    with the full former name, and ele:kartverket-dmt with the height that
    the lookup returned; nothing else of the node changes. *)
Theorem C6_rewrite_sets_name_and_appends_four
    (float : string -> option Q) (str_float : Q -> string)
    (urlopen : string -> list coord -> http_reply)
    (node_element : Element) (l : list log_record) (node_element' : Element) :
  process_node float str_float urlopen node_element = (l, inr node_element') ->
  node_element' <> node_element ->
  exists i name_el name m dmt,
    candidate_match node_element i name_el name m /\
    dmt_ele_of float urlopen node_element = ([], inr (Some dmt)) /\
    children node_element'
    = <[i := ET.set name_el "v" (name_without_ele m)]> (children node_element)
      ++ [mk_tag_element str_float "ele" (VStr (ele m));
          mk_tag_element str_float "NOTE" (VStr "fixed name with elevation");
          mk_tag_element str_float "name:original" (VStr name);
          mk_tag_element str_float "ele:kartverket-dmt" (VNum dmt)] /\
    tag node_element' = tag node_element /\
    attrib node_element' = attrib node_element.
Proof.
  intros H Hne.
  apply process_node_inr in H
    as [->|(-> & i & e & name & m & dmt & claimed & Hc & _ & Hd & _ & _ & ->)];
    [done|].
  exists i, e, name, m, dmt. split; [done|]. split; [done|].
  split; [apply rewrite_node_children|done].
Qed.

Lemma C6_storefjell_witness :
  process_node float_decimal str_float_integral (service (dtm 1195)) storefjell
    = ([], inr storefjell_fixed) /\
  exists i name_el name m dmt,
    candidate_match storefjell i name_el name m /\
    dmt_ele_of float_decimal (service (Samples.dtm 1195)) storefjell
      = ([], inr (Some dmt)) /\
    children storefjell_fixed
    = <[i := ET.set name_el "v" (name_without_ele m)]> (children storefjell)
      ++ [mk_tag_element str_float_integral "ele" (VStr (ele m));
          mk_tag_element str_float_integral "NOTE"
            (VStr "fixed name with elevation");
          mk_tag_element str_float_integral "name:original" (VStr name);
          mk_tag_element str_float_integral "ele:kartverket-dmt" (VNum dmt)] /\
    tag storefjell_fixed = tag storefjell /\
    attrib storefjell_fixed = attrib storefjell.
Proof.
  split; [reflexivity|].
  apply (C6_rewrite_sets_name_and_appends_four float_decimal str_float_integral
           (service (Samples.dtm 1195)) storefjell []); [reflexivity|].
  intros H. apply (f_equal (fun n => length (children n))) in H.
  vm_compute in H. discriminate H.
Defined.

(** ** Failure of the elevation service *)

(** C9: when the iterations before a node end without an exception, the node
    is a candidate whose name matches with an empty remainder, and the
    lookup for its coordinate raises [HTTPError], then the run ends with that
    error, with the records logged so far, and prints nothing. *)
Theorem C9_lookup_failure_aborts
    (float : string -> option Q) (str_float : Q -> string)
    (urlopen : string -> list coord -> http_reply)
    (root : Element) (pre : list Element) (node_element : Element)
    (post : list Element) (l0 : list log_record) (pre' : list Element)
    (i : nat) (name_el : Element) (name : string) (m : NameMatch) (c : coord) :
  children root = pre ++ node_element :: post ->
  process_nodes float str_float urlopen pre = (l0, inr pre') ->
  candidate_match node_element i name_el name m ->
  rest m = "" ->
  get_coord float node_element = ret c ->
  outcome (get_elevation urlopen [c]) = inl HTTPError ->
  main float str_float urlopen root = (l0, inl HTTPError) /\
  printed (main float str_float urlopen root) = None.
Proof.
  intros Hroot Hpre Hc Hrest Hcoord Hget.
  assert (process_node float str_float urlopen node_element
          = ([], inl HTTPError)) as Hnode.
  { rewrite (process_node_candidate _ _ _ _ _ _ _ _ Hc).
    unfold validate_and_rewrite. rewrite Hrest. simpl nonempty. cbv iota.
    unfold dmt_ele_of. rewrite Hcoord, bind_ret.
    pose proof (get_elevation_silent urlopen [c]) as Hs.
    destruct (get_elevation urlopen [c]) as [l1 r]. simpl in Hs, Hget.
    by subst. }
  assert (main float str_float urlopen root = (l0, inl HTTPError)) as Hmain.
  { unfold main. rewrite Hroot.
    rewrite (process_nodes_raise _ _ _ _ _ _ _ _ _ _ Hpre Hnode).
    by rewrite app_nil_r. }
  split; [done|]. unfold printed. by rewrite Hmain.
Qed.

Lemma C9_lookup_failure_witness :
  main float_decimal str_float_integral (service (down_in_the_west (PyInt 1195)))
       (osm [eastern; storefjell; snohetta]) = ([], inl HTTPError) /\
  printed (main float_decimal str_float_integral
             (service (down_in_the_west (PyInt 1195)))
             (osm [eastern; storefjell; snohetta])) = None.
Proof.
  apply (C9_lookup_failure_aborts float_decimal str_float_integral
           (service (down_in_the_west (PyInt 1195)))
           (osm [eastern; storefjell; snohetta]) [eastern] storefjell [snohetta]
           [] [peak_fixed "12" "Storefjell" [] "1200" "Storefjell 1200" "1195"]
           1 (tag_el "name" "Storefjell 1200") "Storefjell 1200"
           (mkNameMatch "Storefjell" "1200" "") (8 # 1, 61 # 1)%Q).
  - reflexivity.
  - reflexivity.
  - split; [|by vm_compute].
    exists 0, (tag_el "natural" "peak"). by vm_compute.
  - reflexivity.
  - reflexivity.
  - reflexivity.
Defined.

(** ** The second pass *)

Lemma get_set_v (e : Element) (v : string) : ET.get (ET.set e "v" v) "v" = Some v.
Proof. unfold ET.get, ET.set. simpl. apply lookup_insert_eq. Qed.

(** A rewritten node is passed over by any later run. *)
Lemma rewritten_node_again
    (float : string -> option Q) (str_float : Q -> string)
    (urlopen : string -> list coord -> http_reply)
    (n : Element) (l : list log_record) (n' : Element) :
  process_node float str_float urlopen n = (l, inr n') -> n' <> n ->
  exists i name_el name m,
    classify name = Some m /\
    name_tag (scan_tags n') = Some (i, name_el) /\
    ET.get name_el "v" = Some (name_without_ele m) /\
    classify (name_without_ele m) = None /\
    forall float2 str_float2 urlopen2,
      process_node float2 str_float2 urlopen2 n' = ([], inr n').
Proof.
  intros H Hne.
  apply process_node_inr in H
    as [->|(-> & i & e & name & m & dmt & claimed & Hc & _ & _ & _ & _ & ->)];
    [done|].
  destruct Hc as (_ & Hname & _ & Hm).
  pose proof (rewritten_name_tag str_float n i e name m dmt Hname) as Hname'.
  pose proof (classify_name_part_again name m Hm) as Hnone.
  exists i, (ET.set e "v" (name_without_ele m)), name, m.
  split; [done|]. split; [done|]. split; [apply get_set_v|]. split; [done|].
  intros float2 str_float2 urlopen2.
  apply (process_node_no_match float2 str_float2 urlopen2 _ i
           (ET.set e "v" (name_without_ele m)) (name_without_ele m));
    [done|apply get_set_v|done].
Qed.

Lemma process_nodes_again
    (float : string -> option Q) (str_float : Q -> string)
    (urlopen : string -> list coord -> http_reply)
    (ns ns' : list Element) :
  Forall2 (fun n n' => exists l1,
             process_node float str_float urlopen n = (l1, inr n')) ns ns' ->
  exists l', process_nodes float str_float urlopen ns' = (l', inr ns').
Proof.
  induction 1 as [|n n' ns ns' [l1 Hn] _ [l2 IH]]; [by exists []|].
  assert (exists l3, process_node float str_float urlopen n' = (l3, inr n'))
    as [l3 Hn'].
  { pose proof Hn as Hcase. apply process_node_inr in Hcase as [->|Hrw].
    - by exists l1.
    - exists []. destruct Hrw as (_ & i & e & name & m & dmt & claimed & _
                                  & _ & _ & _ & _ & Heq).
      destruct (rewritten_node_again float str_float urlopen n l1 n' Hn)
        as (_ & _ & _ & _ & _ & _ & _ & _ & Hagain); [|apply Hagain].
      rewrite Heq. apply rewrite_node_changes. }
  exists (l3 ++ l2). simpl. rewrite Hn'. simpl. rewrite IH. simpl.
  by rewrite app_nil_r.
Qed.

(** C5, as the specification words it, fails: a second run on the printed
    document does classify nodes. A peak whose name matched with a remainder
    was left alone by the first run, so it matches again in the second. *)
Lemma C5_skipped_nodes_are_classified_again :
  ~ (forall (float : string -> option Q) (str_float : Q -> string)
            (urlopen : string -> list coord -> http_reply)
            (root : Element) (l : list log_record) (root' : Element),
       main float str_float urlopen root = (l, inr root') ->
       forall n', n' ∈ children root' ->
                  forall i name_el name m, ~ candidate_match n' i name_el name m).
Proof.
  intros H.
  apply (H float_decimal str_float_integral (service (dtm 1195))
           (osm [storefjell; snohetta]) [Skipping "Snohetta 2286 (highest)"]
           (osm [storefjell_fixed; snohetta]) eq_refl snohetta
           ltac:(right; left) 1 (tag_el "name" "Snohetta 2286 (highest)")
           "Snohetta 2286 (highest)" (mkNameMatch "Snohetta" "2286" " (highest)")).
  split; [|by vm_compute]. exists 0, (tag_el "natural" "peak"). by vm_compute.
Qed.

(** C5, amended: in the document that a run prints, every node that the run
    rewrote has the name part as the value of its name tag, and the name part
    matches neither pattern; any later run, with whatever collaborators,
    classifies no such node and passes it over without a lookup and without a
    warning; and the same run on its own output prints that output again
    (nodes that the first run skipped are judged and skipped again). *)
Theorem C5_second_pass_changes_nothing
    (float : string -> option Q) (str_float : Q -> string)
    (urlopen : string -> list coord -> http_reply)
    (root : Element) (l : list log_record) (root' : Element) :
  main float str_float urlopen root = (l, inr root') ->
  (forall k n n',
      children root !! k = Some n -> children root' !! k = Some n' ->
      n' <> n ->
      (exists i name_el name m,
          classify name = Some m /\
          name_tag (scan_tags n') = Some (i, name_el) /\
          ET.get name_el "v" = Some (name_without_ele m) /\
          classify (name_without_ele m) = None) /\
      (forall i name_el name m, ~ candidate_match n' i name_el name m) /\
      (forall float2 str_float2 urlopen2,
          process_node float2 str_float2 urlopen2 n' = ([], inr n'))) /\
  exists l', main float str_float urlopen root' = (l', inr root').
Proof.
  intros H. apply main_inr in H as (Hns & Htag & Hattr).
  apply process_nodes_inr in Hns. split.
  - intros k n n' Hk Hk' Hne.
    destruct (Forall2_lookup_lr _ _ _ _ _ _ Hns Hk Hk') as [l1 Hn].
    destruct (rewritten_node_again float str_float urlopen n l1 n' Hn Hne)
      as (i & e & name & m & Hm & Hname & Hv & Hnone & Hagain).
    split; [by exists i, e, name, m|]. split; [|done].
    intros i' e' name' m' (_ & Hname' & Hv' & Hm'). congruence.
  - apply process_nodes_again in Hns as [l' Hl']. exists l'.
    unfold main. rewrite Hl'. simpl. rewrite app_nil_r. by destruct root'.
Qed.

Lemma C5_second_pass_witness :
  (forall k n n',
      children (osm [storefjell; snohetta]) !! k = Some n ->
      children (osm [storefjell_fixed; snohetta]) !! k = Some n' ->
      n' <> n ->
      (exists i name_el name m,
          classify name = Some m /\
          name_tag (scan_tags n') = Some (i, name_el) /\
          ET.get name_el "v" = Some (name_without_ele m) /\
          classify (name_without_ele m) = None) /\
      (forall i name_el name m, ~ candidate_match n' i name_el name m) /\
      (forall float2 str_float2 urlopen2,
          process_node float2 str_float2 urlopen2 n' = ([], inr n'))) /\
  exists l', run_with (dtm 1195) (osm [storefjell_fixed; snohetta])
             = (l', inr (osm [storefjell_fixed; snohetta])).
Proof.
  apply (C5_second_pass_changes_nothing float_decimal str_float_integral
           (service (dtm 1195)) (osm [storefjell; snohetta])
           [Skipping "Snohetta 2286 (highest)"]).
  reflexivity.
Defined.

Example run_fixed_again :
  run_with (dtm 1195) (osm [storefjell_fixed; snohetta])
  = ([Skipping "Snohetta 2286 (highest)"], inr (osm [storefjell_fixed; snohetta])).
Proof. reflexivity. Qed.

(** ** The frame *)

Lemma candidate_name_tag_position (n : Element) (i : nat) (e : Element)
    (name : string) (m : NameMatch) :
  candidate_match n i e name m ->
  children n !! i = Some e /\ has_key "name" e = true.
Proof.
  intros (_ & Hname & _). destruct (scan_tags_last n) as (Hlast & _).
  rewrite Hname in Hlast. symmetry in Hlast.
  by apply last_tag_from_Some in Hlast as (k & -> & Hk & He & _).
Qed.

(** Every child of a node is still in its place after the rewriting; only
    the value of the name tag differs. *)
Lemma rewrite_node_keeps_children (str_float : Q -> string) (n : Element)
    (i : nat) (e : Element) (m : NameMatch) (name : string) (dmt : pynum)
    (k : nat) (t : Element) :
  children n !! i = Some e -> has_key "name" e = true ->
  children n !! k = Some t ->
  exists t',
    children (rewrite_node str_float n i e m name dmt) !! k = Some t' /\
    tag t' = tag t /\ children t' = children t /\
    (forall key, key <> "v" -> attrib t' !! key = attrib t !! key) /\
    (has_key "name" t = false -> t' = t).
Proof.
  intros Hi He Hk. rewrite rewrite_node_children.
  pose proof (lookup_lt_Some _ _ _ Hk) as Hlt.
  rewrite lookup_app_l by (by rewrite length_insert).
  destruct (decide (k = i)) as [->|Hki].
  - rewrite list_lookup_insert_eq by done.
    assert (t = e) as -> by congruence.
    exists (ET.set e "v" (name_without_ele m)).
    split; [done|]. split; [done|]. split; [done|]. split.
    + intros key Hkey. unfold ET.set. simpl. by rewrite lookup_insert_ne.
    + congruence.
  - rewrite list_lookup_insert_ne by done. by exists t.
Qed.

(** C7: when a run prints a document, the root keeps its tag and attributes
    and its children stand in the same places; each printed node is what the
    iteration made of the node in the same place alone; it keeps its tag and
    attributes, and every child it had is still in its place with the same
    tag, children and attributes other than the value, unchanged altogether
    unless it is a name tag; a node that is no candidate, or whose iteration
    logged a warning, is printed as it was read. *)
Theorem C7_frame
    (float : string -> option Q) (str_float : Q -> string)
    (urlopen : string -> list coord -> http_reply)
    (root : Element) (l : list log_record) (root' : Element) :
  main float str_float urlopen root = (l, inr root') ->
  tag root' = tag root /\ attrib root' = attrib root /\
  Forall2
    (fun n n' =>
       (exists l1, process_node float str_float urlopen n = (l1, inr n') /\
                   (l1 <> [] -> n' = n)) /\
       tag n' = tag n /\ attrib n' = attrib n /\
       (forall k t, children n !! k = Some t ->
          exists t', children n' !! k = Some t' /\
                     tag t' = tag t /\ children t' = children t /\
                     (forall key, key <> "v" ->
                                  attrib t' !! key = attrib t !! key) /\
                     (has_key "name" t = false -> t' = t)) /\
       ((forall i e name m, ~ candidate_match n i e name m) -> n' = n))
    (children root) (children root').
Proof.
  intros H. apply main_inr in H as (Hns & Htag & Hattr).
  split; [done|]. split; [done|].
  apply process_nodes_inr in Hns.
  eapply Forall2_impl; [exact Hns|]. clear. intros n n' [l1 Hn].
  pose proof Hn as Hcase.
  apply process_node_inr in Hcase
    as [->|(-> & i & e & name & m & dmt & claimed & Hc & _ & _ & _ & _ & ->)].
  - split; [by exists l1|]. split; [done|]. split; [done|].
    split; [|done]. intros k t Hk. by exists t.
  - split; [by exists []|]. split; [done|]. split; [done|]. split.
    + intros k t Hk.
      destruct (candidate_name_tag_position _ _ _ _ _ Hc) as [Hi He].
      by apply rewrite_node_keeps_children.
    + intros Hnot. by destruct (Hnot i e name m).
Qed.

Lemma C7_frame_witness :
  run_with (dtm 1195)
    (osm [peak_named "8" "Storefjell 1200" [tag_el "ele" "1190"]; snohetta])
  = ([Skipping "Snohetta 2286 (highest)"],
     inr (osm [peak_fixed "8" "Storefjell" [tag_el "ele" "1190"]
                 "1200" "Storefjell 1200" "1195"; snohetta])) /\
  Forall2
    (fun n n' =>
       (exists l1, process_node float_decimal str_float_integral
                     (service (dtm 1195)) n = (l1, inr n') /\
                   (l1 <> [] -> n' = n)) /\
       tag n' = tag n /\ attrib n' = attrib n /\
       (forall k t, children n !! k = Some t ->
          exists t', children n' !! k = Some t' /\
                     tag t' = tag t /\ children t' = children t /\
                     (forall key, key <> "v" ->
                                  attrib t' !! key = attrib t !! key) /\
                     (has_key "name" t = false -> t' = t)) /\
       ((forall i e name m, ~ candidate_match n i e name m) -> n' = n))
    [peak_named "8" "Storefjell 1200" [tag_el "ele" "1190"]; snohetta]
    [peak_fixed "8" "Storefjell" [tag_el "ele" "1190"]
       "1200" "Storefjell 1200" "1195"; snohetta].
Proof.
  split; [reflexivity|].
  apply (C7_frame float_decimal str_float_integral (service (dtm 1195))
           (osm [peak_named "8" "Storefjell 1200" [tag_el "ele" "1190"]; snohetta])
           [Skipping "Snohetta 2286 (highest)"]
           (osm [peak_fixed "8" "Storefjell" [tag_el "ele" "1190"]
                   "1200" "Storefjell 1200" "1195"; snohetta])).
  reflexivity.
Defined.


(** * Further properties of the script *)

(** ** The classifier, in full *)

Lemma only_elevation_parts (s : string) (gs : list string) :
  fullmatch only_elevation_pattern s = Some gs ->
  exists g1 w g2,
    gs = [g1; g2] /\ s = g1 +:+ w +:+ g2 /\
    all_chars is_digit g1 = true /\ nonempty g1 = true /\
    all_chars is_space w = true /\
    all_chars (fun c => negb (is_newline c)) g2 = true.
Proof.
  unfold fullmatch, only_elevation_pattern. simpl. intros H.
  apply repeat_greedy_sound in H as (g1 & r1 & -> & H1 & H).
  destruct (nonempty g1) eqn:Hn1; [|done].
  destruct (repeat_greedy _ r1 _) as [gs1|] eqn:E1; [|done].
  apply repeat_greedy_sound in E1 as (w & r2 & -> & Hw & E1).
  destruct (repeat_greedy _ r2 _) as [gs2|] eqn:E2; [|done].
  apply repeat_greedy_sound in E2 as (g2 & r3 & -> & H2 & E2).
  destruct r3; [|done]. simpl in E2. simplify_eq.
  exists g1, w, g2. rewrite str_app_nil_r.
  repeat split; solve [reflexivity | assumption].
Qed.

(** X1: whenever a name is classified, the name part holds no digit, the
    elevation part is a non-empty run of digits and the remainder holds no
    line feed; the name is either the name part, at least one whitespace
    character, the elevation part and the remainder, or, with an empty name
    part, the elevation part, whitespace if any, and the remainder. *)
Theorem X1_classified_name_in_parts (name : string) (m : NameMatch) :
  classify name = Some m ->
  any_char is_digit (name_without_ele m) = false /\
  all_chars is_digit (ele m) = true /\ nonempty (ele m) = true /\
  any_char is_newline (rest m) = false /\
  exists w,
    all_chars is_space w = true /\
    ((nonempty w = true /\
      name = name_without_ele m +:+ w +:+ ele m +:+ rest m) \/
     (name_without_ele m = "" /\ name = ele m +:+ w +:+ rest m)).
Proof.
  unfold classify. intros H.
  destruct (fullmatch name_with_elevation_pattern name) as [gs|] eqn:E1.
  - apply name_with_elevation_inv in E1
      as (g1 & w & g2 & g3 & -> & -> & H1 & Hw & Hnw & H2 & Hn2 & H3).
    simplify_eq. simpl.
    split; [by apply all_not_any|]. split; [done|]. split; [done|].
    split; [by apply all_not_any|]. exists w. split; [done|]. by left.
  - destruct (fullmatch only_elevation_pattern name) as [gs|] eqn:E2; [|done].
    apply only_elevation_parts in E2
      as (g1 & w & g2 & -> & -> & H1 & Hn1 & Hw & H2).
    simplify_eq. simpl.
    split; [done|]. split; [done|]. split; [done|].
    split; [by apply all_not_any|]. exists w. split; [done|]. by right.
Qed.

Lemma X1_classified_name_witness :
  any_char is_digit "Foo" = false /\
  all_chars is_digit "12" = true /\ nonempty "12" = true /\
  any_char is_newline " 13" = false /\
  exists w,
    all_chars is_space w = true /\
    ((nonempty w = true /\ "Foo 12 13" = "Foo" +:+ w +:+ "12" +:+ " 13") \/
     ("Foo" = "" /\ "Foo 12 13" = "12" +:+ w +:+ " 13")).
Proof.
  exact (X1_classified_name_in_parts "Foo 12 13" (mkNameMatch "Foo" "12" " 13")
           eq_refl).
Defined.

Lemma str_app_nil_l (s : string) : "" +:+ s = s.
Proof. reflexivity. Qed.

(** The first pattern never matches a name that begins with a digit. *)
Lemma name_with_elevation_digit_first (d : ascii) (s : string) :
  is_digit d = true -> fullmatch name_with_elevation_pattern (String d s) = None.
Proof.
  intros Hd.
  destruct (fullmatch name_with_elevation_pattern (String d s)) as [gs|] eqn:E;
    [|done].
  apply name_with_elevation_inv in E
    as (g1 & w & g2 & g3 & _ & Hs & H1 & Hw & Hnw & _).
  destruct g1 as [|a g1].
  - destruct w as [|b w]; [done|].
    rewrite str_app_nil_l, !str_app_cons in Hs. simpl in Hw.
    simplify_eq. apply andb_true_iff in Hw as [Hb _].
    apply space_not_digit in Hb. congruence.
  - rewrite str_app_cons in Hs. simpl in H1. simplify_eq.
    apply andb_true_iff in H1 as [Ha _]. by rewrite Hd in Ha.
Qed.

(** X2: a name that is a run of digits, then whitespace the remainder does
    not go on with, then a remainder without line feed is classified by the
    second pattern: the name part is empty, the elevation part is the digits
    and the remainder is the text after the whitespace. A name of digits alone
    is the case without whitespace and remainder. *)
Theorem X2_digits_first (digits ws remainder : string) :
  all_chars is_digit digits = true -> nonempty digits = true ->
  all_chars is_space ws = true ->
  stops is_digit (ws +:+ remainder) = true ->
  stops is_space remainder = true ->
  all_chars (fun c => negb (is_newline c)) remainder = true ->
  classify (digits +:+ ws +:+ remainder)
  = Some (mkNameMatch "" digits remainder).
Proof.
  intros Hd Hn Hws Hstop Hstop' Hrest. unfold classify.
  assert (fullmatch name_with_elevation_pattern (digits +:+ ws +:+ remainder)
          = None) as ->.
  { destruct digits as [|d ds]; [done|]. rewrite str_app_cons.
    simpl in Hd. apply andb_true_iff in Hd as [Hd _].
    by apply name_with_elevation_digit_first. }
  assert (fullmatch only_elevation_pattern (digits +:+ ws +:+ remainder)
          = Some [digits; remainder]) as ->; [|done].
  unfold fullmatch, only_elevation_pattern.
  rewrite match_here_cons. apply repeat_greedy_max; [done|done|].
  simpl admits. rewrite Hn, match_here_cons.
  erewrite repeat_greedy_max; [reflexivity|exact Hws|exact Hstop'|].
  simpl admits. cbv iota. rewrite match_here_cons.
  rewrite <- (str_app_nil_r remainder) at 1.
  by erewrite repeat_greedy_max; [reflexivity|exact Hrest|done|].
Qed.

Lemma X2_digits_first_witness :
  classify "1340" = Some (mkNameMatch "" "1340" "") /\
  classify "1340 moh" = Some (mkNameMatch "" "1340" "moh").
Proof.
  split.
  - exact (X2_digits_first "1340" "" "" eq_refl eq_refl eq_refl eq_refl
             eq_refl eq_refl).
  - exact (X2_digits_first "1340" " " "moh" eq_refl eq_refl eq_refl eq_refl
             eq_refl eq_refl).
Defined.

Lemma match_digits_then_rest (ds r : string) :
  all_chars is_digit ds = true -> nonempty ds = true ->
  stops is_digit r = true ->
  all_chars (fun c => negb (is_newline c)) r = true ->
  match_here [Atom true Digit Plus; Atom true Dot Star] (ds +:+ r)
  = Some [ds; r].
Proof.
  intros Hd Hn Hstop Hr. rewrite match_here_cons.
  apply repeat_greedy_max; [exact Hd|exact Hstop|].
  simpl admits. rewrite Hn, match_here_cons.
  rewrite <- (str_app_nil_r r) at 1.
  by erewrite repeat_greedy_max; [reflexivity|exact Hr|done|].
Qed.

(** X3: a name made of a prefix without digits, whitespace, digits and a
    remainder that holds no line feed and does not go on with a digit is
    classified by the first pattern: the name part runs up to the last
    whitespace character before the digits, the elevation part is the digits
    and the remainder is all the text after them. *)
Theorem X3_prefix_digits_remainder
    (prefix ws : string) (w : ascii) (digits remainder : string) :
  all_chars (fun c => negb (is_digit c)) prefix = true ->
  all_chars is_space ws = true -> is_space w = true ->
  all_chars is_digit digits = true -> nonempty digits = true ->
  stops is_digit remainder = true ->
  all_chars (fun c => negb (is_newline c)) remainder = true ->
  classify (prefix +:+ ws +:+ String w (digits +:+ remainder))
  = Some (mkNameMatch (prefix +:+ ws) digits remainder).
Proof.
  intros Hp Hws Hw Hd Hn Hstop Hr. unfold classify.
  assert (fullmatch name_with_elevation_pattern
            (prefix +:+ ws +:+ String w (digits +:+ remainder))
          = Some [prefix +:+ ws; digits; remainder]) as ->; [|done].
  assert (stops is_space (digits +:+ remainder) = true) as Hss.
  { destruct digits as [|d ds]; [done|]. rewrite str_app_cons. simpl in *.
    apply andb_true_iff in Hd as [Hd _].
    destruct (is_space d) eqn:E; [|done].
    apply space_not_digit in E. congruence. }
  rewrite <- str_app_assoc. unfold fullmatch, name_with_elevation_pattern.
  rewrite match_here_cons. apply repeat_greedy_back.
  - rewrite all_chars_app. apply andb_true_iff.
    split; [exact Hp | exact (all_space_not_digit ws Hws)].
  - simpl. by rewrite (space_not_digit w Hw).
  - destruct digits as [|d ds]; [done|]. rewrite str_app_cons. simpl in *.
    apply andb_true_iff in Hd as [-> _]. done.
  - simpl admits. cbv iota. rewrite match_here_cons.
    destruct (digits +:+ remainder) as [|d r]; [done|]. simpl in *.
    apply negb_true_iff in Hss. by rewrite Hss.
  - simpl admits. cbv iota. rewrite match_here_cons.
    change (String w (digits +:+ remainder))
      with (String w "" +:+ (digits +:+ remainder)).
    erewrite repeat_greedy_max; [reflexivity| |exact Hss|].
    + simpl. by rewrite Hw.
    + simpl admits. by rewrite match_digits_then_rest.
Qed.

Lemma X3_prefix_digits_remainder_witness :
  classify "Snohetta 2286 (highest)"
  = Some (mkNameMatch "Snohetta" "2286" " (highest)").
Proof.
  exact (X3_prefix_digits_remainder "Snohetta" "" " " "2286" " (highest)"
           eq_refl eq_refl eq_refl eq_refl eq_refl eq_refl eq_refl).
Defined.

(** X4: a name without any digit matches neither pattern. *)
Theorem X4_no_digit_no_match (name : string) :
  any_char is_digit name = false -> classify name = None.
Proof. apply classify_no_digit. Qed.

Lemma X4_no_digit_witness : classify "Galdhopiggen" = None.
Proof. exact (X4_no_digit_no_match "Galdhopiggen" eq_refl). Defined.

(** ** The elevation lookup *)

Lemma batches_aux_spec (fuel : nat) (l : list coord) :
  length l <= fuel ->
  concat (batches_aux fuel l) = l /\
  Forall (fun b => 0 < length b <= 50) (batches_aux fuel l).
Proof.
  revert l. induction fuel as [|fuel IH]; intros l Hlen.
  - destruct l; [by split|simpl in Hlen; lia].
  - destruct l as [|a l]; [by split|].
    change (batches_aux (S fuel) (a :: l))
      with (take 50 (a :: l) :: batches_aux fuel (drop 50 (a :: l))).
    destruct (IH (drop 50 (a :: l))) as [Hcat Hall].
    { rewrite length_drop. simpl in *. lia. }
    split.
    + cbn [concat]. rewrite Hcat. apply take_drop.
    + constructor; [|done]. rewrite length_take. cbn [length]. lia.
Qed.

(** X5: the batches of a list of coordinates are the list cut in order into
    pieces of at most 50 coordinates, none of them empty; so no request is
    sent for an empty list, and no coordinate is asked for twice or left
    out. *)
Theorem X5_batches_cut_the_list (l : list coord) :
  concat (batches l) = l /\
  Forall (fun b => 0 < length b <= 50) (batches l).
Proof. apply batches_aux_spec. done. Qed.

(** *** The dictionary of elevations *)

Lemma coord_eqb_refl (c : coord) : coord_eqb c c = true.
Proof.
  unfold coord_eqb. apply andb_true_iff. split; by apply Qeq_bool_iff.
Qed.

Lemma coord_eqb_true (a b : coord) :
  coord_eqb a b = true <-> (fst a == fst b)%Q /\ (snd a == snd b)%Q.
Proof. unfold coord_eqb. by rewrite andb_true_iff, !Qeq_bool_iff. Qed.

Lemma coord_eqb_same_class (a b c : coord) :
  coord_eqb a b = true -> coord_eqb a c = coord_eqb b c.
Proof.
  intros [H1 H2]%coord_eqb_true.
  destruct (coord_eqb b c) eqn:E.
  - apply coord_eqb_true in E as [E1 E2]. apply coord_eqb_true.
    split; [by rewrite H1|by rewrite H2].
  - destruct (coord_eqb a c) eqn:E'; [|done].
    apply coord_eqb_true in E' as [E1 E2].
    assert (coord_eqb b c = true) as Hbc; [|congruence].
    apply coord_eqb_true. split; [by rewrite <- H1|by rewrite <- H2].
Qed.

Lemma dict_get_set_other (k : coord) (v : option pynum) (d : elevation_dict)
    (c : coord) :
  coord_eqb k c = false -> dict_get c (dict_set k v d) = dict_get c d.
Proof.
  intros Hkc. induction d as [|[k' v'] d IH]; simpl.
  - by rewrite Hkc.
  - destruct (coord_eqb k' k) eqn:E; simpl.
    + rewrite (coord_eqb_same_class k' k c E), Hkc. done.
    + by rewrite IH.
Qed.

Lemma store_punkt_other (endpoint : string)
    (st : elevation_dict * list coord) (p : punkt) (c : coord) :
  coord_eqb (x p, y p) c = false ->
  dict_get c (fst (store_punkt endpoint st p)) = dict_get c (fst st).
Proof.
  intros Hp. destruct st as [d pending]. unfold store_punkt.
  destruct (z p); [by apply dict_get_set_other|].
  destruct (decide (endpoint = "punkt")); [by apply dict_get_set_other|done].
Qed.

Lemma query_batches_other (urlopen : string -> list coord -> http_reply)
    (c : coord) (endpoint : string) (bs : list (list coord))
    (st st' : elevation_dict * list coord) (l : list log_record) :
  (forall endpoint batch punkter p,
      urlopen endpoint batch = http_ok punkter -> p ∈ punkter ->
      coord_eqb (x p, y p) c = false) ->
  query_batches urlopen endpoint bs st = (l, inr st') ->
  dict_get c (fst st') = dict_get c (fst st).
Proof.
  intros Hnot. revert st. induction bs as [|b bs IH]; intros st H; simpl in H.
  - unfold ret in H. by simplify_eq.
  - destruct (urlopen endpoint b) as [|punkter] eqn:E; [done|].
    rewrite (IH _ H). clear H IH.
    assert (forall p, p ∈ punkter -> coord_eqb (x p, y p) c = false) as Hps
      by eauto.
    clear E. revert st. induction punkter as [|p ps IHp]; intros st; [done|].
    simpl. rewrite IHp.
    + apply store_punkt_other, Hps. by left.
    + intros q Hq. apply Hps. by right.
Qed.

(** X7: the keys of the result are the points that the replies list, not the
    coordinates that were asked for. When no reply lists a point equal to a
    coordinate, the result has no entry for it and subscripting the result
    with it raises [KeyError]. *)
Theorem X7_unlisted_coordinate_raises_KeyError
    (urlopen : string -> list coord -> http_reply) (coords : list coord)
    (c : coord) (l : list log_record) (elevations : elevation_dict) :
  (forall endpoint batch punkter p,
      urlopen endpoint batch = http_ok punkter -> p ∈ punkter ->
      coord_eqb (x p, y p) c = false) ->
  get_elevation urlopen coords = (l, inr elevations) ->
  subscript elevations c = raise KeyError.
Proof.
  intros Hnot H. unfold get_elevation, query_endpoint in H.
  apply bind_inr in H as (l1 & [d1 p1] & l2 & H1 & H & ->).
  apply bind_inr in H as (l3 & [d2 p2] & l4 & H2 & H & ->).
  unfold ret in H. simplify_eq. simpl.
  apply (query_batches_other urlopen c) in H1; [|done].
  apply (query_batches_other urlopen c) in H2; [|done].
  simpl in *. unfold subscript. by rewrite H2, H1.
Qed.

Lemma X7_unlisted_coordinate_witness :
  subscript [] (8 # 1, 61 # 1)%Q = raise KeyError.
Proof.
  apply (X7_unlisted_coordinate_raises_KeyError empty_replies
           [(8 # 1, 61 # 1)%Q] (8 # 1, 61 # 1)%Q [] []).
  - intros endpoint batch punkter p [= <-] Hp. by apply elem_of_nil in Hp.
  - reflexivity.
Defined.

(** *** The two endpoints *)

Lemma query_batches_same_replies (u1 u2 : string -> list coord -> http_reply)
    (endpoint : string) (bs : list (list coord))
    (st : elevation_dict * list coord) :
  (forall batch, u1 endpoint batch = u2 endpoint batch) ->
  query_batches u1 endpoint bs st = query_batches u2 endpoint bs st.
Proof.
  intros Hsame. revert st. induction bs as [|b bs IH]; intros st; [done|].
  simpl. rewrite Hsame. destruct (u2 endpoint b); [done|apply IH].
Qed.

Lemma query_batches_nothing_pending
    (urlopen : string -> list coord -> http_reply) (endpoint : string)
    (bs : list (list coord)) (st st' : elevation_dict * list coord)
    (l : list log_record) :
  (forall batch punkter p,
      urlopen endpoint batch = http_ok punkter -> p ∈ punkter ->
      z p <> None) ->
  query_batches urlopen endpoint bs st = (l, inr st') -> snd st' = snd st.
Proof.
  intros Hall. revert st. induction bs as [|b bs IH]; intros st H; simpl in H.
  - unfold ret in H. by simplify_eq.
  - destruct (urlopen endpoint b) as [|punkter] eqn:E; [done|].
    rewrite (IH _ H). clear H IH.
    assert (forall p, p ∈ punkter -> z p <> None) as Hps by eauto.
    clear E. revert st. induction punkter as [|p ps IHp]; intros st; [done|].
    simpl. rewrite IHp.
    + destruct st as [d pending]. unfold store_punkt.
      destruct (z p) eqn:Hz; [done|]. exfalso. apply (Hps p); [by left|done].
    + intros q Hq. apply Hps. by right.
Qed.

(** X8: when every point in the replies of the first endpoint has a height,
    the second endpoint is not asked at all: the lookup gives the same result
    with any other service that answers the first endpoint alike, also one
    whose second endpoint fails. *)
Theorem X8_second_endpoint_only_for_the_unresolved
    (u1 u2 : string -> list coord -> http_reply) (coords : list coord) :
  (forall batch,
      u1 "datakilder/dtm1/punkt" batch = u2 "datakilder/dtm1/punkt" batch) ->
  (forall batch punkter p,
      u1 "datakilder/dtm1/punkt" batch = http_ok punkter -> p ∈ punkter ->
      z p <> None) ->
  get_elevation u1 coords = get_elevation u2 coords.
Proof.
  intros Hsame Hall. unfold get_elevation.
  assert (query_endpoint u1 "datakilder/dtm1/punkt" ([], coords)
          = query_endpoint u2 "datakilder/dtm1/punkt" ([], coords)) as Hfirst.
  { unfold query_endpoint. by apply query_batches_same_replies. }
  rewrite <- Hfirst.
  destruct (query_endpoint u1 "datakilder/dtm1/punkt" ([], coords))
    as [l1 [e1|[d1 p1]]] eqn:E1; [done|].
  unfold query_endpoint in E1.
  apply query_batches_nothing_pending in E1; [|done]. simpl in E1. by subst.
Qed.

Lemma X8_second_endpoint_witness :
  get_elevation (service (dtm 1195)) [(8 # 1, 61 # 1)%Q]
  = get_elevation (punkt_down (dtm 1195)) [(8 # 1, 61 # 1)%Q].
Proof.
  apply (X8_second_endpoint_only_for_the_unresolved
           (service (dtm 1195)) (punkt_down (dtm 1195))).
  - intros batch. reflexivity.
  - intros batch punkter p. unfold service.
    destruct (existsb _ batch); [done|]. intros [= <-] Hp.
    apply list_elem_of_In, in_map_iff in Hp as (c & <- & _). done.
Defined.

(** X9: for one coordinate that both endpoints list under its own values,
    the first without a height, the lookup returns what the second endpoint
    says about it, a height or none. *)
Theorem X9_second_endpoint_decides
    (urlopen : string -> list coord -> http_reply) (c : coord)
    (z2 : option pynum) :
  urlopen "datakilder/dtm1/punkt" [c] = http_ok [mkPunkt (fst c) (snd c) None] ->
  urlopen "punkt" [c] = http_ok [mkPunkt (fst c) (snd c) z2] ->
  (let* elevations := get_elevation urlopen [c] in subscript elevations c)
  = ret z2.
Proof.
  intros H1 H2. destruct c as [lon lat]. unfold get_elevation, query_endpoint.
  simpl in *. rewrite H1. simpl. rewrite H2. simpl.
  destruct z2 as [h|]; simpl; unfold subscript; simpl;
    by rewrite (coord_eqb_refl (lon, lat)).
Qed.

Lemma X9_second_endpoint_witness :
  (let* elevations :=
     get_elevation (service (flat None (Some (PyInt 1195)))) [(8 # 1, 61 # 1)%Q]
   in subscript elevations (8 # 1, 61 # 1)%Q)
  = ret (Some (PyInt 1195)).
Proof.
  exact (X9_second_endpoint_decides (service (flat None (Some (PyInt 1195))))
           (8 # 1, 61 # 1)%Q (Some (PyInt 1195)) eq_refl eq_refl).
Defined.

(** ** Nodes and documents *)

(** X10: in a rewritten node the tag that a scan takes for the elevation is
    the appended one, which carries the digits of the name; an older ele tag,
    still in its place, is no longer the one seen. *)
Theorem X10_appended_ele_is_the_one_seen
    (str_float : Q -> string) (n : Element) (i : nat) (e : Element)
    (m : NameMatch) (name : string) (dmt : pynum) :
  ele_tag (scan_tags (rewrite_node str_float n i e m name dmt))
  = Some (length (children n), mk_tag_element str_float "ele" (VStr (ele m))).
Proof.
  destruct (scan_tags_last (rewrite_node str_float n i e m name dmt))
    as (_ & -> & _).
  unfold last_tag. rewrite rewrite_node_children, last_tag_from_app.
  rewrite length_insert. simpl. by rewrite !mk_tag_element_has_key.
Qed.

Lemma validate_log
    (float : string -> option Q) (str_float : Q -> string)
    (urlopen : string -> list coord -> http_reply)
    (n : Element) (refs : tag_refs) (i : nat) (e : Element) (name : string)
    (m : NameMatch) (l : list log_record) (r : py_error + Element) :
  validate_and_rewrite float str_float urlopen n refs i e name m = (l, r) ->
  l = [] \/ exists record, l = [record] /\ r = inr n.
Proof.
  unfold validate_and_rewrite.
  destruct (nonempty (rest m));
    [unfold bind, warning, ret; intros ?; simplify_eq; right; eauto|].
  pose proof (dmt_ele_of_silent float urlopen n) as Hs.
  destruct (dmt_ele_of float urlopen n) as [l0 [err|dmt_ele]];
    simpl in Hs; subst l0; [unfold bind; intros ?; simplify_eq; by left|].
  change ([], inr dmt_ele) with (ret (A:=option pynum) dmt_ele).
  rewrite bind_ret.
  destruct (float (ele m)) as [claimed|] eqn:Hf;
    [rewrite (float_of_Some _ _ _ Hf), bind_ret
    |rewrite (float_of_None _ _ Hf); unfold bind, raise; intros ?;
     simplify_eq; by left].
  destruct dmt_ele as [dmt|]; [|unfold raise; intros ?; simplify_eq; by left].
  destruct (Qgtb (Qabs (num_value dmt - claimed)) 20);
    [unfold bind, warning, ret; intros ?; simplify_eq; right; eauto|].
  destruct (truthy (existing_ele_of (ele_tag refs)));
    [|unfold ret; intros ?; simplify_eq; by left].
  rewrite bind_ret.
  pose proof (float_of_silent float (existing_ele_of (ele_tag refs))) as Hs.
  destruct (float_of float (existing_ele_of (ele_tag refs)))
    as [l0 [err|existing]]; simpl in Hs; subst l0;
    [unfold bind; intros ?; simplify_eq; by left|].
  change ([], inr existing) with (ret (A:=Q) existing). rewrite bind_ret.
  destruct (Qgtb (Qabs (claimed - existing)) 10);
    [unfold bind, warning, ret; intros ?; simplify_eq; right; eauto
    |unfold ret; intros ?; simplify_eq; by left].
Qed.

(** X11: an iteration logs at most one warning, and when it logs one it
    neither raises nor rewrites: the node comes back as it was. An exception
    or a rewriting comes without any warning. *)
Theorem X11_a_warning_means_untouched
    (float : string -> option Q) (str_float : Q -> string)
    (urlopen : string -> list coord -> http_reply)
    (n : Element) (l : list log_record) (r : py_error + Element) :
  process_node float str_float urlopen n = (l, r) ->
  l = [] \/ exists record, l = [record] /\ r = inr n.
Proof.
  unfold process_node.
  destruct (natural_tag (scan_tags n)) as [[j ne]|];
    [|unfold ret; intros ?; simplify_eq; by left].
  destruct (not_peak_or_hill (ET.get ne "v"));
    [unfold ret; intros ?; simplify_eq; by left|].
  destruct (name_tag (scan_tags n)) as [[i e]|];
    [|unfold ret; intros ?; simplify_eq; by left].
  destruct (ET.get e "v") as [name|];
    [|unfold raise; intros ?; simplify_eq; by left].
  destruct (classify name) as [m|];
    [|unfold ret; intros ?; simplify_eq; by left].
  apply validate_log.
Qed.

Lemma X11_a_warning_witness :
  [Skipping "Snohetta 2286 (highest)"] = [] \/
  exists record,
    [Skipping "Snohetta 2286 (highest)"] = [record] /\
    @inr py_error Element snohetta = inr snohetta.
Proof.
  exact (X11_a_warning_means_untouched float_decimal str_float_integral
           (service (dtm 2286)) snohetta _ _ eq_refl).
Defined.

Lemma process_nodes_untouched
    (float : string -> option Q) (str_float : Q -> string)
    (urlopen : string -> list coord -> http_reply) (ns : list Element) :
  Forall (fun n => process_node float str_float urlopen n = ret n) ns ->
  process_nodes float str_float urlopen ns = ret ns.
Proof.
  induction 1 as [|n ns Hn _ IH]; [done|].
  simpl. by rewrite Hn, bind_ret, IH, bind_ret.
Qed.

(** X12: a document in which no element carries a natural tag of value peak
    or hill as its last natural tag is printed as it was read, without a
    warning and without a request, whatever the names hold and whatever the
    collaborators are. *)
Theorem X12_no_peak_no_change
    (float : string -> option Q) (str_float : Q -> string)
    (urlopen : string -> list coord -> http_reply) (root : Element) :
  (forall n j natural_el,
      n ∈ children root ->
      natural_tag (scan_tags n) = Some (j, natural_el) ->
      not_peak_or_hill (ET.get natural_el "v") = true) ->
  main float str_float urlopen root = ret root.
Proof.
  intros Hno. unfold main.
  rewrite process_nodes_untouched, bind_ret; [by destruct root|].
  apply Forall_forall. intros n Hn. unfold process_node.
  destruct (natural_tag (scan_tags n)) as [[j ne]|] eqn:E; [|done].
  by rewrite (Hno n j ne Hn E).
Qed.

Lemma X12_no_peak_witness :
  main float_decimal str_float_integral empty_replies (osm [tree])
  = ret (osm [tree]).
Proof.
  apply X12_no_peak_no_change. intros n j natural_el Hn.
  apply list_elem_of_singleton in Hn as ->. by intros [= <- <-].
Defined.

(** X13: a candidate whose name matches with an empty remainder but which
    has no lon attribute, as a way or a relation tagged as a peak, makes the
    iteration raise [TypeError] before any request is sent. *)
Theorem X13_no_coordinate_raises_TypeError
    (float : string -> option Q) (str_float : Q -> string)
    (urlopen : string -> list coord -> http_reply)
    (n : Element) (i : nat) (name_el : Element) (name : string)
    (m : NameMatch) :
  candidate_match n i name_el name m -> rest m = "" ->
  ET.get n "lon" = None ->
  process_node float str_float urlopen n = ([], inl TypeError).
Proof.
  intros Hc Hrest Hlon. rewrite (process_node_candidate _ _ _ _ _ _ _ _ Hc).
  unfold validate_and_rewrite, dmt_ele_of, get_coord.
  by rewrite Hrest, Hlon.
Qed.

Lemma X13_no_coordinate_witness :
  process_node float_decimal str_float_integral (service (dtm 1195)) way_peak
  = ([], inl TypeError).
Proof.
  apply (X13_no_coordinate_raises_TypeError _ _ _ way_peak 1
           (tag_el "name" "Storefjell 1200") "Storefjell 1200"
           (mkNameMatch "Storefjell" "1200" "")).
  - split; [|by vm_compute]. exists 0, (tag_el "natural" "peak"). by vm_compute.
  - reflexivity.
  - reflexivity.
Defined.

(** ** The two tolerances *)

Lemma Qle_bool_false (a b : Q) : (b < a)%Q -> Qle_bool a b = false.
Proof.
  intros Hlt. destruct (Qle_bool a b) eqn:E; [|done].
  apply Qle_bool_iff in E. by apply Qlt_not_le in Hlt.
Qed.

(** On whole numbers the comparison is the one of the integers. *)
Lemma Qabs_difference_whole (a b k : Z) :
  Qle_bool (Qabs (inject_Z a - inject_Z b)) (inject_Z k)
  = (Z.abs (a - b) <=? k)%Z.
Proof.
  unfold Qle_bool, Qabs, Qminus, Qplus, Qopp, inject_Z. simpl.
  rewrite !Z.mul_1_r. by rewrite Z.add_opp_r.
Qed.

(** X14: for a candidate whose name matches with an empty remainder, whose
    existing elevation is not usable (no ele tag, an ele tag element without
    children, or an empty value), whose lookup returns a whole number [h] and
    whose name holds the number [c], both up to 2^52 in magnitude so that
    line 166 computes exactly, the terrain model decides alone: the node is
    rewritten when [h] and [c] differ by at most 20, and otherwise the
    warning with the height is logged and the node is left as it was. *)
Theorem X14_terrain_model_decides_alone
    (float : string -> option Q) (str_float : Q -> string)
    (urlopen : string -> list coord -> http_reply)
    (n : Element) (i : nat) (name_el : Element) (name : string)
    (m : NameMatch) (dmt : pynum) (h c : Z) :
  candidate_match n i name_el name m -> rest m = "" ->
  dmt_ele_of float urlopen n = ([], inr (Some dmt)) ->
  num_value dmt = inject_Z h -> (Z.abs h <= 2 ^ 52)%Z ->
  float (ele m) = Some (inject_Z c) -> (0 <= c <= 2 ^ 52)%Z ->
  truthy (existing_ele_of (ele_tag (scan_tags n))) = false ->
  ((Z.abs (h - c) <= 20)%Z ->
   process_node float str_float urlopen n
   = ret (rewrite_node str_float n i name_el m name dmt)) /\
  ((20 < Z.abs (h - c))%Z ->
   process_node float str_float urlopen n
   = ([Skipping_dmt_ele name dmt], inr n)).
Proof.
  intros Hc Hrest Hd Hh _ Hf _ Hex.
  rewrite (process_node_candidate _ _ _ _ _ _ _ _ Hc).
  rewrite (validate_without_existing float str_float urlopen n (scan_tags n)
             i name_el name m dmt (inject_Z c));
    [|by rewrite Hrest|done|done|done].
  rewrite Hh. change 20%Q with (inject_Z 20). rewrite Qabs_difference_whole.
  split; intros Hcmp.
  - by rewrite (proj2 (Z.leb_le _ _) Hcmp).
  - by rewrite (proj2 (Z.leb_gt _ _) Hcmp).
Qed.

Lemma X14_terrain_model_witness :
  process_node float_decimal str_float_integral (service (dtm 1220))
    (peak_named "8" "Storefjell 1200" [tag_el "ele" "1150"])
  = ret (rewrite_node str_float_integral
           (peak_named "8" "Storefjell 1200" [tag_el "ele" "1150"]) 1
           (tag_el "name" "Storefjell 1200")
           (mkNameMatch "Storefjell" "1200" "") "Storefjell 1200" (PyInt 1220)).
Proof.
  apply (X14_terrain_model_decides_alone float_decimal str_float_integral
           (service (dtm 1220))
           (peak_named "8" "Storefjell 1200" [tag_el "ele" "1150"]) 1
           (tag_el "name" "Storefjell 1200") "Storefjell 1200"
           (mkNameMatch "Storefjell" "1200" "") (PyInt 1220) 1220 1200).
  - split; [|by vm_compute]. exists 0, (tag_el "natural" "peak"). by vm_compute.
  - reflexivity.
  - reflexivity.
  - reflexivity.
  - by vm_compute.
  - reflexivity.
  - by vm_compute.
  - reflexivity.
  - by vm_compute.
Defined.

(** X15: for such a candidate whose ele tag element has children and a
    non-empty value, where the height [h], the number [c] of the name and
    the existing elevation [x] are whole numbers up to 2^52 in magnitude so
    that lines 166 and 170 compute exactly, both tolerances are tested, the
    terrain model first: a difference above 20 between [h] and [c] logs the
    warning with the height; otherwise a difference above 10 between [c] and
    [x] logs the warning with the existing value; otherwise the node is
    rewritten. Both bounds are inclusive. *)
Theorem X15_both_tolerances
    (float : string -> option Q) (str_float : Q -> string)
    (urlopen : string -> list coord -> http_reply)
    (n : Element) (i : nat) (name_el : Element) (name : string)
    (m : NameMatch) (dmt : pynum) (h c x : Z) :
  candidate_match n i name_el name m -> rest m = "" ->
  dmt_ele_of float urlopen n = ([], inr (Some dmt)) ->
  num_value dmt = inject_Z h -> (Z.abs h <= 2 ^ 52)%Z ->
  float (ele m) = Some (inject_Z c) -> (0 <= c <= 2 ^ 52)%Z ->
  truthy (existing_ele_of (ele_tag (scan_tags n))) = true ->
  float_of float (existing_ele_of (ele_tag (scan_tags n))) = ret (inject_Z x) ->
  (Z.abs x <= 2 ^ 52)%Z ->
  ((20 < Z.abs (h - c))%Z ->
   process_node float str_float urlopen n
   = ([Skipping_dmt_ele name dmt], inr n)) /\
  ((Z.abs (h - c) <= 20)%Z -> (10 < Z.abs (c - x))%Z ->
   process_node float str_float urlopen n
   = ([Skipping_existing_ele name
         (default "" (existing_ele_of (ele_tag (scan_tags n))))], inr n)) /\
  ((Z.abs (h - c) <= 20)%Z -> (Z.abs (c - x) <= 10)%Z ->
   process_node float str_float urlopen n
   = ret (rewrite_node str_float n i name_el m name dmt)).
Proof.
  intros Hc Hrest Hd Hh _ Hf _ Hex Hparse _.
  rewrite (process_node_candidate _ _ _ _ _ _ _ _ Hc).
  assert (nonempty (rest m) = false) as Hnr by (by rewrite Hrest).
  rewrite (validate_with_existing float str_float urlopen n (scan_tags n)
             i name_el name m dmt (inject_Z c) Hnr Hd Hf (inject_Z x) Hex
             Hparse).
  rewrite Hh. change 20%Q with (inject_Z 20). change 10%Q with (inject_Z 10).
  rewrite !Qabs_difference_whole.
  split; [|split].
  - intros Hgt. by rewrite (proj2 (Z.leb_gt _ _) Hgt).
  - intros Hle Hgt.
    by rewrite (proj2 (Z.leb_le _ _) Hle), (proj2 (Z.leb_gt _ _) Hgt).
  - intros Hle Hle'.
    by rewrite (proj2 (Z.leb_le _ _) Hle), (proj2 (Z.leb_le _ _) Hle').
Qed.

Lemma X15_both_tolerances_witness :
  process_node float_decimal str_float_integral (service (dtm 1195))
    (peak_named "8" "Storefjell 1200" [tag_el_with_child "ele" "1189"])
  = ([Skipping_existing_ele "Storefjell 1200" "1189"],
     inr (peak_named "8" "Storefjell 1200" [tag_el_with_child "ele" "1189"])).
Proof.
  apply (X15_both_tolerances float_decimal str_float_integral
           (service (dtm 1195))
           (peak_named "8" "Storefjell 1200" [tag_el_with_child "ele" "1189"]) 1
           (tag_el "name" "Storefjell 1200") "Storefjell 1200"
           (mkNameMatch "Storefjell" "1200" "") (PyInt 1195) 1195 1200 1189).
  - split; [|by vm_compute]. exists 0, (tag_el "natural" "peak"). by vm_compute.
  - reflexivity.
  - reflexivity.
  - reflexivity.
  - by vm_compute.
  - reflexivity.
  - by vm_compute.
  - reflexivity.
  - reflexivity.
  - by vm_compute.
  - by vm_compute.
  - by vm_compute.
Defined.

(** ** Exceptions and the log *)

(** X16: when an iteration raises, whatever the exception, the run ends with
    it; the warnings logged up to there are kept, nothing is printed, and the
    nodes after it are never looked at. *)
Theorem X16_an_exception_ends_the_run
    (float : string -> option Q) (str_float : Q -> string)
    (urlopen : string -> list coord -> http_reply)
    (root : Element) (pre : list Element) (n : Element) (post : list Element)
    (l0 : list log_record) (pre' : list Element) (l1 : list log_record)
    (err : py_error) :
  children root = pre ++ n :: post ->
  process_nodes float str_float urlopen pre = (l0, inr pre') ->
  process_node float str_float urlopen n = (l1, inl err) ->
  main float str_float urlopen root = (l0 ++ l1, inl err) /\
  printed (main float str_float urlopen root) = None.
Proof.
  intros Hroot Hpre Hn.
  assert (main float str_float urlopen root = (l0 ++ l1, inl err)) as Hmain.
  { unfold main. rewrite Hroot.
    by rewrite (process_nodes_raise _ _ _ _ _ _ _ _ _ _ Hpre Hn). }
  split; [done|]. unfold printed. by rewrite Hmain.
Qed.

Lemma X16_an_exception_witness :
  main float_decimal str_float_integral (service (dtm 1195))
       (osm [snohetta; way_peak; storefjell])
  = ([Skipping "Snohetta 2286 (highest)"] ++ [], inl TypeError) /\
  printed (main float_decimal str_float_integral (service (dtm 1195))
             (osm [snohetta; way_peak; storefjell])) = None.
Proof.
  apply (X16_an_exception_ends_the_run float_decimal str_float_integral
           (service (dtm 1195)) (osm [snohetta; way_peak; storefjell])
           [snohetta] way_peak [storefjell] _ [snohetta]);
    reflexivity.
Defined.

(** X17: the warnings of a run that goes through a list of nodes are the
    warnings of the iterations, node after node in document order. *)
Theorem X17_warnings_in_document_order
    (float : string -> option Q) (str_float : Q -> string)
    (urlopen : string -> list coord -> http_reply)
    (ns : list Element) (l : list log_record) (ns' : list Element) :
  process_nodes float str_float urlopen ns = (l, inr ns') ->
  exists ls,
    l = concat ls /\
    Forall3 (fun n n' l1 =>
               process_node float str_float urlopen n = (l1, inr n'))
            ns ns' ls.
Proof.
  revert l ns'. induction ns as [|n ns IH]; intros l ns' H; simpl in H.
  - unfold ret in H. simplify_eq. exists []. split; [done|constructor].
  - apply bind_inr in H as (l1 & n1 & l2 & Hn & H & ->).
    apply bind_inr in H as (l3 & ns1 & l4 & Hns & H & ->).
    unfold ret in H. simplify_eq.
    destruct (IH _ _ Hns) as (ls & -> & Hall).
    exists (l1 :: ls). split; [by rewrite app_nil_r|by constructor].
Qed.

Lemma X17_warnings_witness :
  exists ls,
    [Skipping "Snohetta 2286 (highest)";
     Skipping_dmt_ele "Storefjell 1200" (PyInt 1300)] = concat ls /\
    Forall3 (fun n n' l1 =>
               process_node float_decimal str_float_integral
                 (service (dtm 1300)) n = (l1, inr n'))
            [snohetta; tree; storefjell] [snohetta; tree; storefjell] ls.
Proof.
  exact (X17_warnings_in_document_order float_decimal str_float_integral
           (service (dtm 1300)) [snohetta; tree; storefjell] _ _ eq_refl).
Defined.

(** X18: for one coordinate that the first endpoint lists under its own
    values with a height, the lookup returns that height, whatever the second
    endpoint would do. *)
Theorem X18_first_endpoint_height
    (urlopen : string -> list coord -> http_reply) (c : coord) (h : pynum) :
  urlopen "datakilder/dtm1/punkt" [c]
    = http_ok [mkPunkt (fst c) (snd c) (Some h)] ->
  (let* elevations := get_elevation urlopen [c] in subscript elevations c)
  = ret (Some h).
Proof.
  intros H1. destruct c as [lon lat]. unfold get_elevation, query_endpoint.
  simpl in *. rewrite H1. simpl. unfold subscript. simpl.
  by rewrite (coord_eqb_refl (lon, lat)).
Qed.

Lemma X18_first_endpoint_witness :
  (let* elevations :=
     get_elevation (punkt_down (dtm 1195)) [(8 # 1, 61 # 1)%Q]
   in subscript elevations (8 # 1, 61 # 1)%Q)
  = ret (Some (PyInt 1195)).
Proof.
  exact (X18_first_endpoint_height (punkt_down (dtm 1195)) (8 # 1, 61 # 1)%Q
           (PyInt 1195) eq_refl).
Defined.
